(** * Short-term-holder MVRV fetcher: the response pipeline of
      [scripts/fetch_short_term_holder_mvrv.py]

    The script fetches one HTTP response, unwraps its body into CSV text,
    parses it, resolves the date, metric and price columns by name, and turns
    the rows into output records.  This file embeds the parts of the script
    that are its own code: the text handling, the column lookup and resolver,
    and the per-row projection.  The CSV parser and the numeric parser belong
    to pandas and are taken as parameters.

    Text is modelled on characters with code points 0..255 ([ascii] read as
    a code point); [str.strip] and [str.lower] are given on that range. *)

From Stdlib Require Import Strings.String Strings.Ascii Lists.List Bool.Bool.
From Stdlib Require Import Arith.PeanoNat Lia.
Import ListNotations.
Open Scope string_scope.
Open Scope bool_scope.

(** ** Python text primitives *)

Module PyStr.

(** Characters removed by [str.strip()]: TAB..CR, FS..US, space, NEL, NBSP. *)
Definition is_space (c : ascii) : bool :=
  let n := nat_of_ascii c in
  (((9 <=? n) && (n <=? 13)) || ((28 <=? n) && (n <=? 32))
   || (n =? 133) || (n =? 160))%nat.

(** [str.lower()] on one character: A..Z and the accented capitals
    U+00C0..U+00DE (the multiplication sign U+00D7 apart) move up by 32. *)
Definition lower_char (c : ascii) : ascii :=
  let n := nat_of_ascii c in
  if (((65 <=? n) && (n <=? 90))
      || ((192 <=? n) && (n <=? 222) && negb (n =? 215)))%nat
  then ascii_of_nat (n + 32) else c.

Fixpoint lower (s : string) : string :=
  match s with
  | EmptyString => EmptyString
  | String c s' => String (lower_char c) (lower s')
  end.

Fixpoint lstrip (s : string) : string :=
  match s with
  | EmptyString => EmptyString
  | String c s' => if is_space c then lstrip s' else s
  end.

Fixpoint rstrip (s : string) : string :=
  match s with
  | EmptyString => EmptyString
  | String c s' =>
      match rstrip s' with
      | EmptyString => if is_space c then EmptyString else String c EmptyString
      | r => String c r
      end
  end.

(** [s.strip()] *)
Definition strip (s : string) : string := rstrip (lstrip s).

(** [s.startswith(p)] *)
Fixpoint startswith (s p : string) {struct p} : bool :=
  match p, s with
  | EmptyString, _ => true
  | String _ _, EmptyString => false
  | String a p', String b s' => Ascii.eqb b a && startswith s' p'
  end.

Fixpoint rev (s : string) : string :=
  match s with
  | EmptyString => EmptyString
  | String c s' => rev s' ++ String c EmptyString
  end.

(** [s.endswith(p)] *)
Definition endswith (s p : string) : bool := startswith (rev s) (rev p).

(** [sub in s] *)
Fixpoint contains (sub s : string) : bool :=
  startswith s sub
  || match s with
     | EmptyString => false
     | String _ s' => contains sub s'
     end.

(** [s[1:]] and [s[:-1]]; both leave the empty text empty. *)
Definition drop_first (s : string) : string :=
  match s with
  | EmptyString => EmptyString
  | String _ s' => s'
  end.

Fixpoint drop_last (s : string) : string :=
  match s with
  | EmptyString => EmptyString
  | String c s' =>
      match s' with
      | EmptyString => EmptyString
      | String _ _ => String c (drop_last s')
      end
  end.

(** [s[1:-1]] *)
Definition slice_1_m1 (s : string) : string := drop_last (drop_first s).

Definition backslash : ascii := "\"%char.
Definition newline : ascii := ascii_of_nat 10.
Definition dquote : ascii := ascii_of_nat 34.

(** The two-character text backslash, n. *)
Definition escaped_newline : string :=
  String backslash (String "n"%char EmptyString).

(** [s.replace("\\n", "\n")]: a left-to-right scan; every occurrence of
    backslash, n becomes one newline character. *)
Fixpoint replace_escaped_newlines (s : string) : string :=
  match s with
  | EmptyString => EmptyString
  | String c s' =>
      match s' with
      | String d s'' =>
          if Ascii.eqb c backslash && Ascii.eqb d "n"%char
          then String newline (replace_escaped_newlines s'')
          else String c (replace_escaped_newlines s')
      | EmptyString => String c EmptyString
      end
  end.

(** Truth value of a text: non-empty. *)
Definition truthy (s : string) : bool :=
  match s with
  | EmptyString => false
  | String _ _ => true
  end.

End PyStr.

(** ** Insertion-ordered dictionary with text keys

    A Python [dict] iterates in the order in which keys were first inserted;
    storing under a key already present replaces the value and leaves the
    key where it is. *)

Module PyDict.

Definition dict (V : Type) : Type := list (string * V).

Fixpoint set {V} (d : dict V) (k : string) (v : V) : dict V :=
  match d with
  | [] => [(k, v)]
  | (k', v') :: d' =>
      if String.eqb k' k then (k', v) :: d' else (k', v') :: set d' k v
  end.

Fixpoint get {V} (d : dict V) (k : string) : option V :=
  match d with
  | [] => None
  | (k', v') :: d' => if String.eqb k' k then Some v' else get d' k
  end.

(** [d.get(k, default)] *)
Definition get_default {V} (d : dict V) (k : string) (default : V) : V :=
  match get d k with
  | Some v => v
  | None => default
  end.

(** [d.items()] *)
Definition items {V} (d : dict V) : list (string * V) := d.

Definition keys {V} (d : dict V) : list string := map fst d.

End PyDict.

(** ** Errors and results *)

Inductive error : Type :=
| HTTPError (status_code : nat)
    (* resp.raise_for_status() *)
| EmptyResponse
    (* RuntimeError("Empty response from BMP API") *)
| ParserError
    (* raised inside pd.read_csv *)
| EmptyDataFrame
    (* RuntimeError("Parsed empty DataFrame") *)
| ExpectedDateColumn (columns : list string)
    (* RuntimeError(f"Expected a 'Date' column, got {list(df.columns)}") *)
| NoMvrvColumn.
    (* RuntimeError("Could not determine MVRV column from response") *)

Inductive result (A : Type) : Type :=
| Ok (a : A)
| Raise (e : error).

Arguments Ok {A} a.
Arguments Raise {A} e.

Definition bind {A B} (r : result A) (k : A -> result B) : result B :=
  match r with
  | Ok a => k a
  | Raise e => Raise e
  end.

Notation "x <- r ;; k" := (bind r (fun x => k))
  (at level 61, r at next level, right associativity).

(** The fixed part of the message of the script's own [RuntimeError]s;
    the other two errors are raised inside requests and pandas. *)
Definition message (e : error) : option string :=
  match e with
  | HTTPError _ => None
  | EmptyResponse => Some "Empty response from BMP API"
  | ParserError => None
  | EmptyDataFrame => Some "Parsed empty DataFrame"
  | ExpectedDateColumn _ => Some "Expected a 'Date' column, got "
  | NoMvrvColumn => Some "Could not determine MVRV column from response"
  end.

(** ** Column lookup and metric-column resolver *)

Module Resolver.

Import PyStr.

(** [str(c).strip().lower()] *)
Definition normalize (c : string) : string := lower (strip c).

(** [_normalize_cols]: the dict comprehension
    [{str(c).strip().lower(): c for c in df.columns}]. *)
Definition _normalize_cols (columns : list string) : PyDict.dict string :=
  fold_left (fun d c => PyDict.set d (normalize c) c) columns [].

Definition excluded : list string :=
  ["date"; "time"; "timestamp"; "price"; "marketcap"; "market_cap";
   "realized_cap"; "realizedcap"].

(** [lc in excluded] *)
Definition is_excluded (lc : string) : bool :=
  existsb (String.eqb lc) excluded.

Definition has_mvrv (lc : string) : bool := contains "mvrv" lc.

(** ["short" in lc or "sth" in lc] *)
Definition hints_short (lc : string) : bool :=
  contains "short" lc || contains "sth" lc.

(** First loop of [_pick_mvrv_column]: the originals of the entries that are
    not excluded and contain "mvrv", in dictionary order. *)
Fixpoint collect_mvrv (its : list (string * string)) : list string :=
  match its with
  | [] => []
  | (lc, orig) :: rest =>
      if is_excluded lc then collect_mvrv rest
      else if has_mvrv lc then orig :: collect_mvrv rest
      else collect_mvrv rest
  end.

(** Second loop: the first candidate hinting "short" or "sth". *)
Fixpoint find_preferred (cands : list string) : option string :=
  match cands with
  | [] => None
  | c :: rest =>
      if hints_short (normalize c) then Some c else find_preferred rest
  end.

(** [preferred or mvrv_candidates[0]] *)
Definition preferred_or (preferred : option string) (first : string) : string :=
  match preferred with
  | Some c => if truthy c then c else first
  | None => first
  end.

(** Fallback loop: the original of the first entry that is not excluded. *)
Fixpoint first_not_excluded (its : list (string * string)) : option string :=
  match its with
  | [] => None
  | (lc, orig) :: rest =>
      if is_excluded lc then first_not_excluded rest else Some orig
  end.

Definition _pick_mvrv_column (columns : list string) : result string :=
  let colmap := _normalize_cols columns in
  let mvrv_candidates := collect_mvrv (PyDict.items colmap) in
  match mvrv_candidates with
  | first :: _ => Ok (preferred_or (find_preferred mvrv_candidates) first)
  | [] =>
      match first_not_excluded (PyDict.items colmap) with
      | Some orig => Ok orig
      | None => Raise NoMvrvColumn
      end
  end.

(** The column mapping that [main] builds in lines 97-111. *)
Record ColumnMapping : Type := {
  date_col : string;
  mvrv_col : string;
  price_col : option string
}.

(** ["Date" not in df.columns and
     "date" not in [str(c).lower() for c in df.columns]] *)
Definition date_guard_fails (columns : list string) : bool :=
  negb (existsb (String.eqb "Date") columns)
  && negb (existsb (String.eqb "date") (map lower columns)).

Definition resolve_columns (columns : list string) : result ColumnMapping :=
  if date_guard_fails columns then Raise (ExpectedDateColumn columns)
  else
    let colmap := _normalize_cols columns in
    let date_col := PyDict.get_default colmap "date" "Date" in
    mvrv_col <- _pick_mvrv_column columns ;;
    let price_col := PyDict.get colmap "price" in
    Ok {| date_col := date_col; mvrv_col := mvrv_col; price_col := price_col |}.

End Resolver.

(** ** Unwrapper: lines 80-89 of [main] *)

Module Unwrapper.

Import PyStr.

(** [s.startswith(q) and s.endswith(q)], with [q] the double quote. *)
Definition is_quoted (s : string) : bool :=
  startswith s (String dquote EmptyString)
  && endswith s (String dquote EmptyString).

Definition unwrap (raw_text : string) : result string :=
  if negb (truthy (strip raw_text)) then Raise EmptyResponse
  else
    let csv_quoted := strip raw_text in
    let csv_quoted :=
      if is_quoted csv_quoted then slice_1_m1 csv_quoted else csv_quoted in
    Ok (replace_escaped_newlines csv_quoted).

End Unwrapper.

(** ** Table, per-row projection and the body of [main]

    The cells of a parsed frame are missing ([NaN]), text, or numbers.  The
    number type, the numeric parse of a text cell
    ([pd.to_numeric(..., errors="coerce")], [None] where it coerces to NaN),
    the text of a number ([astype(str)]) and what [astype(str)] makes of a
    missing cell are pandas': parameters here.  A missing cell becomes the
    text "nan" in pandas 1.x and 2.x ([Some "nan"]) and stays missing in
    pandas 3.x ([None]); the script pins no version. *)

Inductive value (num : Type) : Type :=
| NaN
| Str (s : string)
| Num (x : num).

Arguments NaN {num}.
Arguments Str {num} s.
Arguments Num {num} x.

Record DataFrame (num : Type) : Type := {
  columns : list string;
  rows : list (list (value num))
}.

Arguments columns {num} d.
Arguments rows {num} d.

(** The frame after [df[keep_cols]]: one date cell, one metric cell and,
    when a price column was resolved, one price cell per row. *)
Record KeptRow (num : Type) : Type := {
  date_cell : value num;
  mvrv_cell : value num;
  price_cell : option (value num)
}.

Arguments date_cell {num} k.
Arguments mvrv_cell {num} k.
Arguments price_cell {num} k.

(** One element of [data]: the keys "date", "sth_mvrv" and, when present,
    "price". *)
Record Item (num : Type) : Type := {
  date : value num;
  sth_mvrv : value num;
  price : option (value num)
}.

Arguments date {num} i.
Arguments sth_mvrv {num} i.
Arguments price {num} i.

(** HTTP response as [main] reads it. *)
Record Response : Type := {
  status_code : nat;
  text : string
}.

Section Pipeline.

Variable num : Type.
Variable parse_num : string -> option num.
Variable show_num : num -> string.
Variable nan_as_str : option string.
Variable read_csv : string -> result (DataFrame num).

(** [pd.notna] *)
Definition notna (v : value num) : bool :=
  match v with
  | NaN => false
  | _ => true
  end.

(** [Series.astype(str)] on one cell; what a missing cell becomes is the
    parameter [nan_as_str]. *)
Definition astype_str (v : value num) : value num :=
  match v with
  | NaN =>
      match nan_as_str with
      | Some s => Str s
      | None => NaN
      end
  | Str s => Str s
  | Num x => Str (show_num x)
  end.

(** [pd.to_numeric(..., errors="coerce")] on one cell. *)
Definition to_numeric (v : value num) : value num :=
  match v with
  | NaN => NaN
  | Num x => Num x
  | Str s =>
      match parse_num s with
      | Some x => Num x
      | None => NaN
      end
  end.

(** Position of a label among the columns. *)
Fixpoint column_index (label : string) (cols : list string) : nat :=
  match cols with
  | [] => 0
  | c :: cols' => if String.eqb c label then 0 else S (column_index label cols')
  end.

(** [row[label]] *)
Definition cell (cols : list string) (row : list (value num))
    (label : string) : value num :=
  nth (column_index label cols) row NaN.

(** [df.empty] *)
Definition df_empty (df : DataFrame num) : bool :=
  match columns df, rows df with
  | [], _ => true
  | _, [] => true
  | _, _ => false
  end.

(** [df[keep_cols]] on one row. *)
Definition keep (cols : list string) (m : Resolver.ColumnMapping)
    (row : list (value num)) : KeptRow num :=
  {| date_cell := cell cols row (Resolver.date_col m);
     mvrv_cell := cell cols row (Resolver.mvrv_col m);
     price_cell := option_map (cell cols row) (Resolver.price_col m) |}.

(** Lines 115-118 on one row. *)
Definition coerce (k : KeptRow num) : KeptRow num :=
  {| date_cell := astype_str (date_cell k);
     mvrv_cell := to_numeric (mvrv_cell k);
     price_cell := option_map to_numeric (price_cell k) |}.

(** [df.dropna(subset=[date_col, mvrv_col])] *)
Definition dropna (ks : list (KeptRow num)) : list (KeptRow num) :=
  filter (fun k => notna (date_cell k) && notna (mvrv_cell k)) ks.

(** Body of the [iterrows] loop; [float] leaves a number as it is. *)
Definition make_item (k : KeptRow num) : Item num :=
  {| date := date_cell k;
     sth_mvrv := mvrv_cell k;
     price :=
       match price_cell k with
       | Some p => if notna p then Some p else None
       | None => None
       end |}.

(** Lines 92-130: from the parsed frame to [data]. *)
Definition build_data (df : DataFrame num) : result (list (Item num)) :=
  if df_empty df then Raise EmptyDataFrame
  else
    m <- Resolver.resolve_columns (columns df) ;;
    Ok (map make_item
          (dropna (map coerce (map (keep (columns df) m) (rows df))))).

(** Lines 80-130: from the response text to [data]. *)
Definition process_text (raw_text : string) : result (list (Item num)) :=
  csv_text <- Unwrapper.unwrap raw_text ;;
  df <- read_csv csv_text ;;
  build_data df.

(** Lines 76-130: [raise_for_status] fails on a 4xx or 5xx status. *)
Definition handle_response (resp : Response) : result (list (Item num)) :=
  if ((400 <=? status_code resp) && (status_code resp <? 600))%nat
  then Raise (HTTPError (status_code resp))
  else process_text (text resp).

(** What one row of the frame contributes to [data]. *)
Definition row_items (cols : list string) (m : Resolver.ColumnMapping)
    (row : list (value num)) : list (Item num) :=
  map make_item (dropna [coerce (keep cols m row)]).

End Pipeline.

Arguments notna {num} v.
Arguments astype_str {num} show_num nan_as_str v.
Arguments to_numeric {num} parse_num v.
Arguments cell {num} cols row label.
Arguments df_empty {num} df.
Arguments keep {num} cols m row.
Arguments coerce {num} parse_num show_num nan_as_str k.
Arguments dropna {num} ks.
Arguments make_item {num} k.
Arguments build_data {num} parse_num show_num nan_as_str df.
Arguments process_text {num} parse_num show_num nan_as_str read_csv raw_text.
Arguments handle_response {num} parse_num show_num nan_as_str read_csv resp.
Arguments row_items {num} parse_num show_num nan_as_str cols m row.

(** The two behaviours of [astype(str)] on a missing cell. *)
Definition missing_stays_missing : option string := None.
Definition missing_becomes_nan_text : option string := Some "nan".

(** ** Specification-side notions

    Notions in which the properties below are stated; none of them is part
    of the script. *)

Module Spec.

Import PyStr Resolver.

(** Plain CSV text: its trimmed form is not wrapped in double quotes and it
    holds no backslash-n sequence. *)
Definition plain_csv (raw : string) : bool :=
  negb (Unwrapper.is_quoted (strip raw))
  && negb (contains escaped_newline raw).

(** A name is a metric candidate when it is not excluded and contains
    "mvrv". *)
Definition candidate (lc : string) : bool :=
  negb (is_excluded lc) && has_mvrv lc.

(** The first candidate that also hints "short" or "sth", and otherwise the
    first candidate, in the order of the list. *)
Definition prefer_short {A} (name : A -> string) (l : list A) : option A :=
  match find (fun a => candidate (name a) && hints_short (name a)) l with
  | Some a => Some a
  | None => find (fun a => candidate (name a)) l
  end.

(** The first element whose name is not excluded. *)
Definition first_unexcluded {A} (name : A -> string) (l : list A) : option A :=
  find (fun a => negb (is_excluded (name a))) l.

(** The names of a list in the order in which each first appears. *)
Fixpoint first_appearance (names : list string) : list string :=
  match names with
  | [] => []
  | n :: rest =>
      n :: filter (fun x => negb (String.eqb x n)) (first_appearance rest)
  end.

(** The last column whose normalized name is [k]. *)
Definition last_named (k : string) (columns : list string) : option string :=
  find (fun c => String.eqb (normalize c) k) (List.rev columns).

(** Every entry of a lookup is keyed by the normalized name of its value. *)
Definition well_keyed (d : PyDict.dict string) : Prop :=
  forall k v, In (k, v) d -> normalize v = k.

(** Every character is one that [strip] removes. *)
Fixpoint all_space (s : string) : bool :=
  match s with
  | EmptyString => true
  | String c s' => is_space c && all_space s'
  end.

(** The quoting that the unwrapper undoes: every newline written as
    backslash, n. *)
Fixpoint escape_newlines (s : string) : string :=
  match s with
  | EmptyString => EmptyString
  | String c s' =>
      if Ascii.eqb c newline
      then String backslash (String "n"%char (escape_newlines s'))
      else String c (escape_newlines s')
  end.

(** ... and the whole put between double quotes. *)
Definition quote_csv (t : string) : string :=
  String dquote (escape_newlines t ++ String dquote EmptyString).

(** The metric cell of a row parses as a number. *)
Definition metric_parses {num} (parse_num : string -> option num)
    (cols : list string) (m : ColumnMapping) (row : list (value num)) : bool :=
  notna (to_numeric parse_num (cell cols row (mvrv_col m))).

(** The row survives [dropna]: its date cell is not missing after
    [astype(str)] and its metric cell parses. *)
Definition row_kept {num} (parse_num : string -> option num)
    (show_num : num -> string) (nan_as_str : option string)
    (cols : list string) (m : ColumnMapping) (row : list (value num)) : bool :=
  notna (astype_str show_num nan_as_str (cell cols row (date_col m)))
  && metric_parses parse_num cols m row.

(** The record of a row, read off the row's own cells. *)
Definition record_of {num} (parse_num : string -> option num)
    (show_num : num -> string)
    (nan_as_str : option string) (cols : list string) (m : ColumnMapping)
    (row : list (value num)) : Item num :=
  {| date := astype_str show_num nan_as_str (cell cols row (date_col m));
     sth_mvrv := to_numeric parse_num (cell cols row (mvrv_col m));
     price :=
       match price_col m with
       | Some pc =>
           if notna (to_numeric parse_num (cell cols row pc))
           then Some (to_numeric parse_num (cell cols row pc))
           else None
       | None => None
       end |}.

End Spec.

(** [keep_cols] of [main], lines 109-111: the date and metric columns and,
    when one was resolved, the price column. *)
Definition keep_cols (m : Resolver.ColumnMapping) : list string :=
  ([Resolver.date_col m; Resolver.mvrv_col m]
   ++ match Resolver.price_col m with
      | Some p => [p]
      | None => []
      end)%list.

(** * Facts about the text primitives *)

Module PyStrFacts.

Import PyStr.

Lemma string_ind2 (P : string -> Prop) :
  P EmptyString ->
  (forall c, P (String c EmptyString)) ->
  (forall c d s, P s -> P (String d s) -> P (String c (String d s))) ->
  forall s, P s.
Proof.
  intros H0 H1 H2.
  assert (both : forall s, P s /\ forall c, P (String c s)).
  { induction s as [|d s [IHs IHc]].
    - split; [exact H0 | exact H1].
    - split; [apply IHc | intro c; apply H2; [exact IHs | apply IHc]]. }
  intro s. apply both.
Qed.

Lemma append_empty_r (s : string) : s ++ EmptyString = s.
Proof. induction s as [|c s IH]; simpl; [reflexivity | now rewrite IH]. Qed.

Lemma append_assoc (a b c : string) : (a ++ b) ++ c = a ++ (b ++ c).
Proof. induction a as [|x a IH]; simpl; [reflexivity | now rewrite IH]. Qed.

(** *** Whitespace and lower-casing *)

Lemma is_space_lower_char (c : ascii) : is_space (lower_char c) = is_space c.
Proof.
  destruct c as [[] [] [] [] [] [] [] []]; vm_compute; reflexivity.
Qed.

Lemma lower_lstrip (s : string) : lower (lstrip s) = lstrip (lower s).
Proof.
  induction s as [|c s IH]; simpl; [reflexivity|].
  rewrite is_space_lower_char. destruct (is_space c); [exact IH | reflexivity].
Qed.

Lemma lower_rstrip (s : string) : lower (rstrip s) = rstrip (lower s).
Proof.
  induction s as [|c s IH]; simpl; [reflexivity|].
  rewrite <- IH, is_space_lower_char.
  destruct (rstrip s); simpl; [destruct (is_space c)|]; reflexivity.
Qed.

Lemma lower_strip (s : string) : lower (strip s) = strip (lower s).
Proof. unfold strip. now rewrite lower_rstrip, lower_lstrip. Qed.

(** *** Stripping *)

Lemma rstrip_idem (s : string) : rstrip (rstrip s) = rstrip s.
Proof.
  induction s as [|c s IH]; simpl; [reflexivity|].
  destruct (rstrip s) as [|d r] eqn:E.
  - destruct (is_space c) eqn:Ec; simpl; [reflexivity | now rewrite Ec].
  - change (rstrip (String c (String d r))) with
      (match rstrip (String d r) with
       | EmptyString => if is_space c then EmptyString else String c EmptyString
       | r' => String c r'
       end).
    now rewrite IH.
Qed.

Lemma lstrip_head (s : string) :
  match lstrip s with
  | EmptyString => True
  | String c _ => is_space c = false
  end.
Proof.
  induction s as [|c s IH]; simpl; [exact I|].
  destruct (is_space c) eqn:E; [exact IH | exact E].
Qed.

Lemma rstrip_head (c : ascii) (s : string) :
  is_space c = false -> exists r, rstrip (String c s) = String c r.
Proof.
  intro E. simpl. destruct (rstrip s) as [|d r].
  - rewrite E. now exists EmptyString.
  - now exists (String d r).
Qed.

Lemma lstrip_fixed (c : ascii) (s : string) :
  is_space c = false -> lstrip (String c s) = String c s.
Proof. intro E. simpl. now rewrite E. Qed.

Lemma strip_idem (s : string) : strip (strip s) = strip s.
Proof.
  unfold strip. pose proof (lstrip_head s) as H.
  destruct (lstrip s) as [|c t] eqn:E; [reflexivity|].
  destruct (rstrip_head c t H) as [r Hr]. rewrite Hr.
  rewrite (lstrip_fixed c r H), <- Hr. apply rstrip_idem.
Qed.

Lemma lstrip_suffix (s : string) : exists w, s = w ++ lstrip s.
Proof.
  induction s as [|c s [w IH]]; simpl.
  - now exists EmptyString.
  - destruct (is_space c).
    + exists (String c w). simpl. now rewrite <- IH.
    + now exists EmptyString.
Qed.

Lemma rstrip_prefix (s : string) : exists w, s = rstrip s ++ w.
Proof.
  induction s as [|c s [w IH]]; simpl.
  - now exists EmptyString.
  - destruct (rstrip s) as [|d r].
    + destruct (is_space c).
      * now exists (String c s).
      * exists s. reflexivity.
    + exists w. simpl. simpl in IH. now rewrite <- IH.
Qed.

Lemma strip_infix (s : string) : exists a b, s = a ++ strip s ++ b.
Proof.
  destruct (lstrip_suffix s) as [a Ha].
  destruct (rstrip_prefix (lstrip s)) as [b Hb].
  exists a, b. unfold strip. now rewrite <- Hb.
Qed.

(** *** Prefixes and occurrences *)

Lemma startswith_app (a b p : string) :
  startswith a p = true -> startswith (a ++ b) p = true.
Proof.
  revert a. induction p as [|x p IH]; intros [|y a] H; simpl in *;
    try reflexivity; try discriminate.
  apply andb_true_iff in H as [H1 H2]. now rewrite H1, (IH a H2).
Qed.

Lemma contains_cons (sub : string) (c : ascii) (s : string) :
  contains sub (String c s) = startswith (String c s) sub || contains sub s.
Proof. reflexivity. Qed.

Lemma contains_app_l (sub a b : string) :
  contains sub a = true -> contains sub (a ++ b) = true.
Proof.
  induction a as [|c a IH]; intro H.
  - simpl in H. rewrite orb_false_r in H. destruct sub; [|discriminate].
    destruct b; reflexivity.
  - simpl append. rewrite contains_cons in *.
    apply orb_true_iff in H as [H|H].
    + change (String c (a ++ b)) with (String c a ++ b).
      now rewrite (startswith_app _ b _ H).
    + rewrite (IH H). apply orb_true_r.
Qed.

Lemma contains_app_r (sub a b : string) :
  contains sub b = true -> contains sub (a ++ b) = true.
Proof.
  intro H. induction a as [|c a IH]; [exact H|].
  simpl append. rewrite contains_cons, IH. apply orb_true_r.
Qed.

Lemma contains_infix_false (sub a s b : string) :
  contains sub (a ++ s ++ b) = false -> contains sub s = false.
Proof.
  intro H. destruct (contains sub s) eqn:E; [|reflexivity].
  rewrite (contains_app_r sub a _ (contains_app_l sub s b E)) in H.
  discriminate.
Qed.

Lemma contains_strip_false (sub s : string) :
  contains sub s = false -> contains sub (strip s) = false.
Proof.
  intro H. destruct (strip_infix s) as (a & b & E).
  rewrite E in H. exact (contains_infix_false _ _ _ _ H).
Qed.

(** *** Replacing escaped newlines *)

Lemma replace_cons2 (c d : ascii) (s : string) :
  replace_escaped_newlines (String c (String d s)) =
  if Ascii.eqb c backslash && Ascii.eqb d "n"%char
  then String newline (replace_escaped_newlines s)
  else String c (replace_escaped_newlines (String d s)).
Proof. reflexivity. Qed.

Lemma startswith_escape (c d : ascii) (s : string) :
  startswith (String c (String d s)) escaped_newline =
  Ascii.eqb c backslash && Ascii.eqb d "n"%char.
Proof. unfold escaped_newline. simpl. now rewrite andb_true_r. Qed.

(** A text without the escape sequence is left as it is. *)
Lemma replace_without_escape (s : string) :
  contains escaped_newline s = false -> replace_escaped_newlines s = s.
Proof.
  induction s as [| c | c d s IHs IHd] using string_ind2; intro H;
    try reflexivity.
  rewrite contains_cons, startswith_escape in H.
  apply orb_false_iff in H as [H1 H2].
  rewrite replace_cons2, H1. now rewrite (IHd H2).
Qed.

(** Every occurrence is replaced, and the text around it is treated on its
    own. *)
Lemma replace_around_escape (a b : string) :
  replace_escaped_newlines (a ++ escaped_newline ++ b) =
  replace_escaped_newlines a ++ String newline (replace_escaped_newlines b).
Proof.
  induction a as [| c | c d a IHa IHd] using string_ind2.
  - reflexivity.
  - change (String c EmptyString ++ escaped_newline ++ b)
      with (String c (String backslash (String "n"%char b))).
    rewrite replace_cons2.
    replace (Ascii.eqb backslash "n"%char) with false by reflexivity.
    rewrite andb_false_r. reflexivity.
  - change (String c (String d a) ++ escaped_newline ++ b)
      with (String c (String d (a ++ escaped_newline ++ b))).
    rewrite !replace_cons2.
    destruct (Ascii.eqb c backslash && Ascii.eqb d "n"%char).
    + rewrite IHa. reflexivity.
    + change (String d (a ++ escaped_newline ++ b))
        with (String d a ++ escaped_newline ++ b).
      rewrite IHd. reflexivity.
Qed.

Lemma replace_head (c : ascii) (s : string) :
  exists t,
    replace_escaped_newlines (String c s) = String c t
    \/ (c = backslash /\ replace_escaped_newlines (String c s) = String newline t).
Proof.
  destruct s as [|d s].
  - exists EmptyString. now left.
  - rewrite replace_cons2.
    destruct (Ascii.eqb c backslash) eqn:Ec; simpl.
    + apply Ascii.eqb_eq in Ec. destruct (Ascii.eqb d "n"%char);
        eexists; [right | left]; eauto.
    + eexists. left. reflexivity.
Qed.

(** The output holds no escape sequence any more. *)
Lemma replace_leaves_no_escape (s : string) :
  contains escaped_newline (replace_escaped_newlines s) = false.
Proof.
  induction s as [| c | c d s IHs IHd] using string_ind2.
  { reflexivity. }
  { simpl. now rewrite andb_false_r. }
  rewrite replace_cons2.
  destruct (Ascii.eqb c backslash && Ascii.eqb d "n"%char) eqn:E.
  - rewrite contains_cons, IHs, orb_false_r.
    destruct (replace_escaped_newlines s); reflexivity.
  - rewrite contains_cons, IHd, orb_false_r.
    destruct (replace_head d s) as [t [Ht | [Hd Ht]]]; rewrite Ht.
    + rewrite startswith_escape. exact E.
    + rewrite startswith_escape.
      replace (Ascii.eqb newline "n"%char) with false by reflexivity.
      apply andb_false_r.
Qed.

(** *** Quotes at both ends *)

Lemma rev_app (a b : string) : rev (a ++ b) = rev b ++ rev a.
Proof.
  induction a as [|c a IH]; simpl.
  - now rewrite append_empty_r.
  - now rewrite IH, append_assoc.
Qed.

Lemma snoc_cases (s : string) :
  s = EmptyString \/ exists body l, s = body ++ String l EmptyString.
Proof.
  induction s as [|c s [-> | (body & l & ->)]].
  - now left.
  - right. now exists EmptyString, c.
  - right. now exists (String c body), l.
Qed.

Lemma drop_last_snoc (s : string) (l : ascii) :
  drop_last (s ++ String l EmptyString) = s.
Proof.
  induction s as [|c s IH]; [reflexivity|].
  simpl append. simpl drop_last.
  destruct (s ++ String l EmptyString) eqn:E.
  - destruct s; discriminate.
  - now rewrite IH.
Qed.

Lemma endswith_snoc (s : string) (l q : ascii) :
  endswith (s ++ String l EmptyString) (String q EmptyString) = Ascii.eqb l q.
Proof.
  unfold endswith. rewrite rev_app. simpl. apply andb_true_r.
Qed.

End PyStrFacts.

(** * The unwrapper *)

Module UnwrapperFacts.

Import PyStr PyStrFacts Unwrapper.

Lemma truthy_nonempty (s : string) : truthy s = true <-> s <> EmptyString.
Proof. destruct s; simpl; split; congruence. Qed.

Lemma unwrap_nonblank (raw : string) :
  strip raw <> EmptyString ->
  unwrap raw =
  Ok (replace_escaped_newlines
        (if is_quoted (strip raw) then slice_1_m1 (strip raw) else strip raw)).
Proof.
  intro H. unfold unwrap. apply truthy_nonempty in H. now rewrite H.
Qed.

Lemma unwrap_blank (raw : string) :
  strip raw = EmptyString -> unwrap raw = Raise EmptyResponse.
Proof. intro H. unfold unwrap. now rewrite H. Qed.

Lemma is_quoted_wrapped (body : string) :
  is_quoted (String dquote (body ++ String dquote EmptyString)) = true.
Proof.
  unfold is_quoted.
  change (String dquote (body ++ String dquote EmptyString))
    with ((String dquote body) ++ String dquote EmptyString) at 2.
  rewrite endswith_snoc. reflexivity.
Qed.

Lemma slice_wrapped (body : string) :
  slice_1_m1 (String dquote (body ++ String dquote EmptyString)) = body.
Proof. unfold slice_1_m1. simpl. apply drop_last_snoc. Qed.

Lemma is_quoted_cases (s : string) :
  is_quoted s = true ->
  s = String dquote EmptyString
  \/ exists body, s = String dquote (body ++ String dquote EmptyString).
Proof.
  unfold is_quoted. intro H. apply andb_true_iff in H as [H1 H2].
  destruct s as [|c t]; [discriminate|].
  simpl in H1. rewrite andb_true_r in H1. apply Ascii.eqb_eq in H1. subst c.
  destruct (snoc_cases t) as [-> | (body & l & ->)]; [now left|].
  right. exists body.
  change (String dquote (body ++ String l EmptyString))
    with ((String dquote body) ++ String l EmptyString) in H2.
  rewrite endswith_snoc in H2. apply Ascii.eqb_eq in H2. now subst l.
Qed.

(** The quoted, escaped body of the specification's example becomes
    two lines of CSV, each ended by a newline. *)
Example unwrap_quoted_escaped_body :
  unwrap (String dquote
            ("Date,MVRV\n2024-01-01,1.5\n" ++ String dquote EmptyString)) =
  Ok ("Date,MVRV" ++ String newline
        ("2024-01-01,1.5" ++ String newline EmptyString)).
Proof. reflexivity. Qed.

(** Other backslash sequences, and quotes inside the text, stay as they
    are. *)
Example unwrap_keeps_other_escapes :
  unwrap ("a\tb" ++ String dquote "c\\d") =
  Ok ("a\tb" ++ String dquote "c\\d").
Proof. reflexivity. Qed.

(** C7. On a non-blank response text the unwrapper trims the text; when the
    trimmed text begins and ends with a double quote it removes that one
    leading and that one trailing quote (a text that is a single quote
    character loses it); it then replaces every backslash-n by a newline:
    the text around an occurrence is treated on its own, a text without
    occurrence is left as it is, and no occurrence survives. *)
Theorem unwrap_removes_one_quote_pair_then_decodes_newlines (raw : string) :
  strip raw <> EmptyString ->
  (forall body,
      strip raw = String dquote (body ++ String dquote EmptyString) ->
      unwrap raw = Ok (replace_escaped_newlines body))
  /\ (strip raw = String dquote EmptyString -> unwrap raw = Ok EmptyString)
  /\ (is_quoted (strip raw) = true ->
      strip raw = String dquote EmptyString
      \/ exists body,
          strip raw = String dquote (body ++ String dquote EmptyString))
  /\ (is_quoted (strip raw) = false ->
      unwrap raw = Ok (replace_escaped_newlines (strip raw)))
  /\ (forall a b,
      replace_escaped_newlines (a ++ escaped_newline ++ b) =
      replace_escaped_newlines a
      ++ String newline (replace_escaped_newlines b))
  /\ (forall s,
      contains escaped_newline s = false -> replace_escaped_newlines s = s)
  /\ (forall s,
      contains escaped_newline (replace_escaped_newlines s) = false).
Proof.
  intro Hne. pose proof (unwrap_nonblank raw Hne) as Hu.
  repeat split.
  - intros body Hb. rewrite Hu, Hb, is_quoted_wrapped, slice_wrapped.
    reflexivity.
  - intro Hq. rewrite Hu, Hq. reflexivity.
  - apply is_quoted_cases.
  - intro Hq. rewrite Hu, Hq. reflexivity.
  - apply replace_around_escape.
  - apply replace_without_escape.
  - apply replace_leaves_no_escape.
Qed.

Lemma unwrap_removes_one_quote_pair_then_decodes_newlines_witness :
  let raw := "  " ++ String dquote ("a\nb" ++ String dquote "  ") in
  strip raw <> EmptyString
  /\ unwrap raw = Ok (String "a" (String newline "b")).
Proof.
  split; [discriminate|].
  destruct (unwrap_removes_one_quote_pair_then_decodes_newlines
              ("  " ++ String dquote ("a\nb" ++ String dquote "  ")))
    as [H _]; [discriminate|].
  exact (H "a\nb" eq_refl).
Defined.

Lemma unwrap_plain (raw : string) :
  strip raw <> EmptyString ->
  Spec.plain_csv raw = true ->
  unwrap raw = Ok (strip raw).
Proof.
  intros Hne Hp. unfold Spec.plain_csv in Hp.
  apply andb_true_iff in Hp as [Hq He].
  apply negb_true_iff in Hq, He.
  rewrite (unwrap_nonblank raw Hne), Hq.
  now rewrite (replace_without_escape _ (contains_strip_false _ _ He)).
Qed.

(** C3, as stated, fails: a two-line CSV text that ends in a newline is
    plain, and the unwrapper returns it without the final newline. *)
Lemma unwrap_plain_csv_drops_final_newline :
  let raw := "a,b" ++ String newline ("1,2" ++ String newline EmptyString) in
  Spec.plain_csv raw = true
  /\ is_quoted raw = false
  /\ unwrap raw = Ok ("a,b" ++ String newline "1,2")
  /\ unwrap raw <> Ok raw.
Proof. repeat split; try reflexivity. discriminate. Qed.

(** C3, amended. On a non-blank plain CSV text the unwrapper returns the
    text with leading and trailing whitespace removed; unwrapping that
    output again returns it unchanged; and the output equals the input when
    the input has no whitespace at either end. *)
Theorem unwrap_plain_csv_is_trimmed_input (raw : string) :
  strip raw <> EmptyString ->
  Spec.plain_csv raw = true ->
  unwrap raw = Ok (strip raw)
  /\ unwrap (strip raw) = Ok (strip raw)
  /\ (strip raw = raw -> unwrap raw = Ok raw).
Proof.
  intros Hne Hp. pose proof (unwrap_plain raw Hne Hp) as Hu.
  repeat split.
  - exact Hu.
  - unfold Spec.plain_csv in Hp. apply andb_true_iff in Hp as [Hq He].
    apply negb_true_iff in He.
    rewrite <- (strip_idem raw) at 2. apply unwrap_plain.
    + now rewrite strip_idem.
    + unfold Spec.plain_csv. rewrite strip_idem, Hq.
      now rewrite (contains_strip_false _ _ He).
  - intro Hs. now rewrite Hu, Hs.
Qed.

Lemma unwrap_plain_csv_is_trimmed_input_witness :
  let raw := " a,b" ++ String newline ("1,2" ++ String newline EmptyString) in
  strip raw <> EmptyString
  /\ Spec.plain_csv raw = true
  /\ unwrap raw = Ok ("a,b" ++ String newline "1,2").
Proof.
  split; [discriminate|]. split; [reflexivity|].
  exact (proj1 (unwrap_plain_csv_is_trimmed_input
                  (" a,b" ++ String newline
                     ("1,2" ++ String newline EmptyString))
                  ltac:(discriminate) eq_refl)).
Defined.

End UnwrapperFacts.

(** * The ordered dictionary *)

Module PyDictFacts.

Import PyDict.

Section Facts.

Context {V : Type}.
Implicit Types (d : dict V) (k : string) (v : V).

Lemma get_set d k v k' :
  get (set d k v) k' = if String.eqb k k' then Some v else get d k'.
Proof.
  induction d as [|[k0 v0] d IH]; simpl.
  - reflexivity.
  - destruct (String.eqb k0 k) eqn:E0; simpl.
    + apply String.eqb_eq in E0. subst k0.
      destruct (String.eqb k k'); reflexivity.
    + destruct (String.eqb k0 k') eqn:E1; [|exact IH].
      apply String.eqb_eq in E1. subst k0. now rewrite String.eqb_sym, E0.
Qed.

Lemma keys_set d k v :
  keys (set d k v) =
  if existsb (String.eqb k) (keys d) then keys d else (keys d ++ [k])%list.
Proof.
  unfold keys. induction d as [|[k0 v0] d IH]; simpl.
  - reflexivity.
  - rewrite (String.eqb_sym k k0).
    destruct (String.eqb k0 k); simpl; [reflexivity|].
    rewrite IH. destruct (existsb (String.eqb k) (map fst d)); reflexivity.
Qed.

Lemma set_fresh d k v :
  existsb (String.eqb k) (keys d) = false ->
  set d k v = (d ++ [(k, v)])%list.
Proof.
  unfold keys. induction d as [|[k0 v0] d IH]; simpl; intro H.
  - reflexivity.
  - apply orb_false_iff in H as [H1 H2].
    rewrite String.eqb_sym in H1. rewrite H1. now rewrite (IH H2).
Qed.

Lemma get_In d k v : get d k = Some v -> In (k, v) d.
Proof.
  induction d as [|[k0 v0] d IH]; simpl; [discriminate|].
  destruct (String.eqb k0 k) eqn:E; intro H.
  - apply String.eqb_eq in E. injection H as ->. subst. now left.
  - right. exact (IH H).
Qed.

Lemma In_set d k v k' v' :
  In (k', v') (set d k v) -> (k' = k /\ v' = v) \/ In (k', v') d.
Proof.
  induction d as [|[k0 v0] d IH]; simpl.
  - intros [H|[]]. injection H as <- <-. now left.
  - destruct (String.eqb k0 k) eqn:E; simpl.
    + apply String.eqb_eq in E. subst k0.
      intros [H|H]; [injection H as <- <-; now left | right; now right].
    + intros [H|H]; [right; now left|].
      destruct (IH H) as [?|?]; [now left | right; now right].
Qed.

(** The first entry whose key satisfies [p] is the entry of that key. *)
Lemma find_key_get (p : string -> bool) d k v :
  find (fun kv => p (fst kv)) d = Some (k, v) ->
  get d k = Some v /\ p k = true.
Proof.
  induction d as [|[k0 v0] d IH]; simpl; [discriminate|].
  destruct (p k0) eqn:Ep.
  - intro H. injection H as -> ->. now rewrite String.eqb_refl.
  - intro H. destruct (IH H) as [Hg Hp]. split; [|exact Hp].
    destruct (String.eqb k0 k) eqn:E; [|exact Hg].
    apply String.eqb_eq in E. congruence.
Qed.

Lemma find_keys (p : string -> bool) d :
  find p (keys d) = option_map fst (find (fun kv => p (fst kv)) d).
Proof.
  unfold keys. induction d as [|[k0 v0] d IH]; simpl; [reflexivity|].
  destruct (p k0); [reflexivity | exact IH].
Qed.

End Facts.

End PyDictFacts.

(** * Generic list facts used by the resolver *)

Module ListFacts.

Lemma find_filter {A} (p q : A -> bool) (l : list A) :
  find p (filter q l) = find (fun x => q x && p x) l.
Proof.
  induction l as [|x l IH]; simpl; [reflexivity|].
  destruct (q x); simpl; [destruct (p x); [reflexivity | exact IH] | exact IH].
Qed.

Lemma find_filter_head {A} (q : A -> bool) (l : list A) :
  find q l = hd_error (filter q l).
Proof.
  induction l as [|x l IH]; simpl; [reflexivity|].
  destruct (q x); [reflexivity | exact IH].
Qed.

Lemma find_map {A B} (f : A -> B) (p : B -> bool) (l : list A) :
  find p (map f l) = option_map f (find (fun a => p (f a)) l).
Proof.
  induction l as [|x l IH]; simpl; [reflexivity|].
  destruct (p (f x)); [reflexivity | exact IH].
Qed.

Lemma find_None_existsb {A} (p : A -> bool) (l : list A) :
  find p l = None <-> existsb p l = false.
Proof.
  induction l as [|x l IH]; simpl; [tauto|].
  destruct (p x); simpl; [split; discriminate | exact IH].
Qed.

Lemma existsb_filter_other (x a : string) (l : list string) :
  String.eqb x a = false ->
  existsb (String.eqb x) (filter (fun y => negb (String.eqb y a)) l) =
  existsb (String.eqb x) l.
Proof.
  intro H. induction l as [|y l IH]; simpl; [reflexivity|].
  destruct (String.eqb y a) eqn:E; simpl.
  - apply String.eqb_eq in E. subst y. now rewrite H.
  - now rewrite IH.
Qed.

Lemma find_ext {A} (p q : A -> bool) (l : list A) :
  (forall x, p x = q x) -> find p l = find q l.
Proof.
  intro H. induction l as [|x l IH]; simpl; [reflexivity|].
  now rewrite H, IH.
Qed.

Lemma existsb_ext {A} (p q : A -> bool) (l : list A) :
  (forall x, p x = q x) -> existsb p l = existsb q l.
Proof.
  intro H. induction l as [|x l IH]; simpl; [reflexivity|].
  now rewrite H, IH.
Qed.

End ListFacts.

(** * The column lookup *)

Module LookupFacts.

Import PyStr PyStrFacts Resolver Spec ListFacts.

Lemma normalize_cols_snoc (cols : list string) (c : string) :
  _normalize_cols (cols ++ [c])%list =
  PyDict.set (_normalize_cols cols) (normalize c) c.
Proof. unfold _normalize_cols. now rewrite fold_left_app. Qed.

(** The lookup holds, for each normalized name, the last column of that
    name. *)
Lemma lookup_get (cols : list string) (k : string) :
  PyDict.get (_normalize_cols cols) k = last_named k cols.
Proof.
  unfold last_named.
  induction cols as [|c cols IH] using rev_ind; [reflexivity|].
  rewrite normalize_cols_snoc, PyDictFacts.get_set, rev_app_distr. simpl.
  destruct (String.eqb (normalize c) k); [reflexivity | exact IH].
Qed.

Lemma lookup_well_keyed (cols : list string) :
  well_keyed (_normalize_cols cols).
Proof.
  unfold well_keyed.
  induction cols as [|c cols IH] using rev_ind; intros k v H; [destruct H|].
  rewrite normalize_cols_snoc in H.
  destruct (PyDictFacts.In_set _ _ _ _ _ H) as [[-> ->]|H'];
    [reflexivity | exact (IH _ _ H')].
Qed.

Lemma lookup_values (cols : list string) (k v : string) :
  In (k, v) (_normalize_cols cols) -> In v cols.
Proof.
  revert k v.
  induction cols as [|c cols IH] using rev_ind; intros k v H; [destruct H|].
  rewrite normalize_cols_snoc in H. apply in_or_app.
  destruct (PyDictFacts.In_set _ _ _ _ _ H) as [[-> ->]|H'].
  - right. now left.
  - left. exact (IH _ _ H').
Qed.

Lemma existsb_first_appearance (x : string) (l : list string) :
  existsb (String.eqb x) (first_appearance l) = existsb (String.eqb x) l.
Proof.
  induction l as [|a l IH]; simpl; [reflexivity|].
  destruct (String.eqb x a) eqn:E; simpl; [reflexivity|].
  now rewrite (existsb_filter_other _ _ _ E).
Qed.

Lemma first_appearance_snoc (l : list string) (x : string) :
  first_appearance (l ++ [x])%list =
  if existsb (String.eqb x) l then first_appearance l
  else (first_appearance l ++ [x])%list.
Proof.
  induction l as [|a l IH]; simpl; [reflexivity|].
  rewrite IH. destruct (String.eqb x a) eqn:E; simpl.
  - destruct (existsb (String.eqb x) l); [reflexivity|].
    rewrite filter_app. simpl. rewrite E. simpl. now rewrite app_nil_r.
  - destruct (existsb (String.eqb x) l); [reflexivity|].
    rewrite filter_app. simpl. now rewrite E.
Qed.

(** The keys of the lookup are the normalized names in order of first
    appearance. *)
Lemma lookup_keys (cols : list string) :
  PyDict.keys (_normalize_cols cols) =
  first_appearance (map normalize cols).
Proof.
  induction cols as [|c cols IH] using rev_ind; [reflexivity|].
  rewrite normalize_cols_snoc, PyDictFacts.keys_set, IH.
  rewrite map_app. simpl. rewrite first_appearance_snoc.
  now rewrite existsb_first_appearance.
Qed.

Lemma In_first_appearance (x : string) (l : list string) :
  In x (first_appearance l) <-> In x l.
Proof.
  pose proof (existsb_first_appearance x l) as H.
  split; intro Hin.
  - destruct (existsb (String.eqb x) l) eqn:E.
    + apply existsb_exists in E as (y & Hy & Heq).
      apply String.eqb_eq in Heq. now subst.
    + assert (existsb (String.eqb x) (first_appearance l) = true) as C.
      { apply existsb_exists. exists x. split; [exact Hin|].
        apply String.eqb_refl. }
      congruence.
  - assert (existsb (String.eqb x) l = true) as C.
    { apply existsb_exists. exists x. split; [exact Hin|].
      apply String.eqb_refl. }
    rewrite <- H in C. apply existsb_exists in C as (y & Hy & Heq).
    apply String.eqb_eq in Heq. now subst.
Qed.

(** With pairwise distinct normalized names the lookup lists the columns in
    their original order. *)
Lemma lookup_distinct (cols : list string) :
  NoDup (map normalize cols) ->
  _normalize_cols cols = map (fun c => (normalize c, c)) cols.
Proof.
  induction cols as [|c cols IH] using rev_ind; intro H; [reflexivity|].
  rewrite map_app in H. simpl in H.
  apply NoDup_remove in H as [H1 H2]. rewrite app_nil_r in H1, H2.
  rewrite normalize_cols_snoc, PyDictFacts.set_fresh.
  - rewrite (IH H1), map_app. reflexivity.
  - rewrite lookup_keys, existsb_first_appearance.
    destruct (existsb (String.eqb (normalize c)) (map normalize cols)) eqn:E;
      [|reflexivity].
    apply existsb_exists in E as (y & Hy & Heq).
    apply String.eqb_eq in Heq. subst y. contradiction.
Qed.

Lemma last_named_Some (k : string) (cols : list string) (c : string) :
  last_named k cols = Some c -> In c cols /\ normalize c = k.
Proof.
  unfold last_named. intro H. apply find_some in H as [H1 H2].
  split; [now apply in_rev | now apply String.eqb_eq].
Qed.

Lemma last_named_exists (cols : list string) (c : string) :
  In c cols -> exists v, last_named (normalize c) cols = Some v.
Proof.
  intro H. unfold last_named.
  destruct (find _ (List.rev cols)) eqn:E; [eauto|].
  apply in_rev in H. apply (find_none _ _ E c) in H.
  now rewrite String.eqb_refl in H.
Qed.

End LookupFacts.

(** * The metric-column resolver *)

Module ResolverFacts.

Import PyStr PyStrFacts Resolver Spec ListFacts LookupFacts.

Lemma collect_mvrv_filter (its : list (string * string)) :
  collect_mvrv its = map snd (filter (fun kv => candidate (fst kv)) its).
Proof.
  unfold candidate.
  induction its as [|[lc orig] its IH]; simpl; [reflexivity|].
  destruct (is_excluded lc); simpl; [exact IH|].
  destruct (has_mvrv lc); simpl; [now rewrite IH | exact IH].
Qed.

Lemma well_keyed_tail (kv : string * string) (its : list (string * string)) :
  well_keyed (kv :: its) -> well_keyed its.
Proof. intros H k v Hin. apply H. now right. Qed.

Lemma well_keyed_filter (q : string * string -> bool)
    (its : list (string * string)) :
  well_keyed its -> well_keyed (filter q its).
Proof. intros H k v Hin. apply filter_In in Hin as [Hin _]. now apply H. Qed.

Lemma find_preferred_entries (its : list (string * string)) :
  well_keyed its ->
  find_preferred (map snd its) =
  option_map snd (find (fun kv => hints_short (fst kv)) its).
Proof.
  induction its as [|[lc orig] its IH]; intro W; simpl; [reflexivity|].
  rewrite (W lc orig (or_introl eq_refl)).
  destruct (hints_short lc); [reflexivity|].
  exact (IH (well_keyed_tail _ _ W)).
Qed.

Lemma first_not_excluded_entries (its : list (string * string)) :
  first_not_excluded its = option_map snd (first_unexcluded fst its).
Proof.
  unfold first_unexcluded.
  induction its as [|[lc orig] its IH]; simpl; [reflexivity|].
  destruct (is_excluded lc); [exact IH | reflexivity].
Qed.

Lemma hints_short_truthy (c : string) :
  hints_short (normalize c) = true -> truthy c = true.
Proof. destruct c; [discriminate | reflexivity]. Qed.

(** What the two loops and [preferred or mvrv_candidates[0]] compute on a
    well-keyed lookup. *)
Lemma candidates_choice (its : list (string * string)) :
  well_keyed its ->
  match prefer_short fst its with
  | Some kv =>
      exists first rest,
        collect_mvrv its = first :: rest
        /\ preferred_or (find_preferred (collect_mvrv its)) first = snd kv
  | None => collect_mvrv its = []
  end.
Proof.
  intro W. rewrite collect_mvrv_filter. unfold prefer_short.
  rewrite (find_preferred_entries _ (well_keyed_filter _ _ W)), find_filter.
  destruct (find (fun a => candidate (fst a) && hints_short (fst a)) its)
    as [[k v]|] eqn:E.
  - destruct (find_some _ _ E) as [Hin Hp]. simpl in Hp.
    apply andb_true_iff in Hp as [Hc Hh].
    assert (In (k, v) (filter (fun kv => candidate (fst kv)) its)) as Hf
      by (apply filter_In; now split).
    destruct (filter (fun kv => candidate (fst kv)) its) as [|[k0 v0] rest];
      [destruct Hf|].
    exists v0, (map snd rest). split; [reflexivity|]. simpl.
    rewrite <- (W k v Hin) in Hh. now rewrite (hints_short_truthy v Hh).
  - rewrite find_filter_head.
    destruct (filter (fun kv => candidate (fst kv)) its) as [|[k0 v0] rest];
      simpl; [reflexivity|].
    exists v0, (map snd rest). now split.
Qed.

Lemma prefer_short_keys (its : list (string * string)) :
  prefer_short (fun k => k) (PyDict.keys its) =
  option_map fst (prefer_short fst its).
Proof.
  unfold prefer_short.
  rewrite (PyDictFacts.find_keys (fun k => candidate k && hints_short k)).
  rewrite (PyDictFacts.find_keys candidate).
  destruct (find _ its); [reflexivity|]. reflexivity.
Qed.

Lemma prefer_short_get (its : list (string * string)) (k v : string) :
  prefer_short fst its = Some (k, v) ->
  PyDict.get its k = Some v /\ candidate k = true.
Proof.
  unfold prefer_short.
  destruct (find (fun a => candidate (fst a) && hints_short (fst a)) its)
    as [kv|] eqn:E.
  - intro H. injection H as ->.
    destruct
      (PyDictFacts.find_key_get (fun k => candidate k && hints_short k)
         _ _ _ E) as [Hg Hp].
    apply andb_true_iff in Hp as [Hc _]. now split.
  - intro H. exact (PyDictFacts.find_key_get candidate _ _ _ H).
Qed.

(** The resolver, in terms of normalized names in order of first appearance
    and of the last column of each name. *)
Lemma pick_by_names (cols : list string) :
  let names := first_appearance (map normalize cols) in
  match prefer_short (fun k => k) names with
  | Some k =>
      exists c, last_named k cols = Some c /\ _pick_mvrv_column cols = Ok c
  | None =>
      match first_unexcluded (fun k => k) names with
      | Some k =>
          exists c, last_named k cols = Some c /\ _pick_mvrv_column cols = Ok c
      | None => _pick_mvrv_column cols = Raise NoMvrvColumn
      end
  end.
Proof.
  intro names. subst names. rewrite <- lookup_keys.
  unfold _pick_mvrv_column, PyDict.items.
  pose proof (candidates_choice _ (lookup_well_keyed cols)) as Hc.
  rewrite prefer_short_keys.
  destruct (prefer_short fst (_normalize_cols cols)) as [[k v]|] eqn:E; simpl.
  - destruct Hc as (first & rest & Hcol & Hpref).
    exists v. rewrite <- lookup_get.
    split; [exact (proj1 (prefer_short_get _ _ _ E))|].
    rewrite Hcol in *. now rewrite Hpref.
  - rewrite Hc, first_not_excluded_entries. unfold first_unexcluded.
    rewrite (PyDictFacts.find_keys (fun k => negb (is_excluded k))).
    destruct (find _ (_normalize_cols cols)) as [[k v]|] eqn:F; simpl;
      [|reflexivity].
    exists v. rewrite <- lookup_get. split; [|reflexivity].
    exact (proj1 (PyDictFacts.find_key_get
                    (fun k => negb (is_excluded k)) _ _ _ F)).
Qed.

(** The resolver on columns whose normalized names are pairwise distinct. *)
Lemma pick_distinct_names (cols : list string) :
  NoDup (map normalize cols) ->
  _pick_mvrv_column cols =
  match prefer_short normalize cols with
  | Some c => Ok c
  | None =>
      match first_unexcluded normalize cols with
      | Some c => Ok c
      | None => Raise NoMvrvColumn
      end
  end.
Proof.
  intro H. unfold _pick_mvrv_column, PyDict.items.
  pose proof (candidates_choice _ (lookup_well_keyed cols)) as Hc.
  rewrite first_not_excluded_entries.
  rewrite (lookup_distinct cols H) in *.
  unfold prefer_short, first_unexcluded in *.
  rewrite !(find_map (fun c => (normalize c, c))) in Hc.
  rewrite (find_map (fun c => (normalize c, c))).
  simpl in *.
  destruct (find (fun a => candidate (normalize a)
                           && hints_short (normalize a)) cols) as [c|]; simpl in *.
  - destruct Hc as (first & rest & Hcol & Hpref). rewrite Hcol in *.
    now rewrite Hpref.
  - destruct (find (fun a => candidate (normalize a)) cols) as [c|]; simpl in *.
    + destruct Hc as (first & rest & Hcol & Hpref). rewrite Hcol in *.
      now rewrite Hpref.
    + rewrite Hc. destruct (find _ cols); reflexivity.
Qed.

Lemma existsb_names (p : string -> bool) (cols : list string) :
  existsb p (first_appearance (map normalize cols)) =
  existsb (fun c => p (normalize c)) cols.
Proof.
  apply eq_iff_eq_true. rewrite !existsb_exists. split.
  - intros (k & Hk & Hp). apply In_first_appearance, in_map_iff in Hk.
    destruct Hk as (c & <- & Hc). now exists c.
  - intros (c & Hc & Hp). exists (normalize c). split; [|exact Hp].
    apply In_first_appearance, in_map. exact Hc.
Qed.

Lemma prefer_short_Some {A} (name : A -> string) (l : list A) (a : A) :
  prefer_short name l = Some a -> In a l /\ candidate (name a) = true.
Proof.
  unfold prefer_short.
  destruct (find (fun a => candidate (name a) && hints_short (name a)) l)
    eqn:E.
  - intro H. injection H as ->. apply find_some in E as [Hin Hp].
    apply andb_true_iff in Hp as [Hc _]. now split.
  - intro H. now apply find_some in H.
Qed.

Lemma prefer_short_exists {A} (name : A -> string) (l : list A) :
  existsb (fun a => candidate (name a)) l = true ->
  exists a, prefer_short name l = Some a.
Proof.
  intro H. unfold prefer_short.
  destruct (find (fun a => candidate (name a) && hints_short (name a)) l);
    [eauto|].
  destruct (find (fun a => candidate (name a)) l) eqn:E; [eauto|].
  apply find_None_existsb in E. congruence.
Qed.

Lemma prefer_short_None {A} (name : A -> string) (l : list A) :
  existsb (fun a => candidate (name a)) l = false ->
  prefer_short name l = None.
Proof.
  intro H. destruct (prefer_short name l) eqn:E; [|reflexivity].
  apply prefer_short_Some in E as [Hin Hc].
  assert (existsb (fun a => candidate (name a)) l = true) as C
    by (apply existsb_exists; eauto).
  congruence.
Qed.

Lemma no_mvrv_no_candidate (cols : list string) :
  existsb (fun c => has_mvrv (normalize c)) cols = false ->
  existsb (fun c => candidate (normalize c)) cols = false.
Proof.
  intro H. destruct (existsb (fun c => candidate (normalize c)) cols) eqn:E;
    [|reflexivity].
  apply existsb_exists in E as (c & Hc & Hp). unfold candidate in Hp.
  apply andb_true_iff in Hp as [_ Hm].
  assert (existsb (fun c => has_mvrv (normalize c)) cols = true) as C
    by (apply existsb_exists; eauto).
  congruence.
Qed.

Lemma all_excluded_no_candidate (cols : list string) :
  forallb (fun c => is_excluded (normalize c)) cols = true ->
  existsb (fun c => candidate (normalize c)) cols = false
  /\ existsb (fun c => negb (is_excluded (normalize c))) cols = false.
Proof.
  intro H. rewrite forallb_forall in H.
  split.
  - destruct (existsb (fun c => candidate (normalize c)) cols) eqn:E;
      [|reflexivity].
    apply existsb_exists in E as (c & Hc & Hp). unfold candidate in Hp.
    now rewrite (H c Hc) in Hp.
  - destruct (existsb (fun c => negb (is_excluded (normalize c))) cols) eqn:E;
      [|reflexivity].
    apply existsb_exists in E as (c & Hc & Hp). now rewrite (H c Hc) in Hp.
Qed.

(** C4, as stated, fails: of three columns whose names all contain "mvrv"
    and hint "short" or "sth", the first and the third share a normalized
    name; the resolver returns the third, not the first in column order
    ("MVRV_short") nor the first of the columns still in the lookup
    ("sth_mvrv"). *)
Lemma pick_returns_later_duplicate_of_preferred :
  let cols := ["MVRV_short"; "sth_mvrv"; "mvrv_short"] in
  existsb (fun c => candidate (normalize c)) cols = true
  /\ prefer_short normalize cols = Some "MVRV_short"
  /\ _normalize_cols cols =
       [("mvrv_short", "mvrv_short"); ("sth_mvrv", "sth_mvrv")]
  /\ _pick_mvrv_column cols = Ok "mvrv_short"
  /\ _pick_mvrv_column cols <> Ok "MVRV_short"
  /\ _pick_mvrv_column cols <> Ok "sth_mvrv".
Proof. repeat split; try reflexivity; discriminate. Qed.

(** C4, amended. Whenever some column has a candidate name (not excluded,
    containing "mvrv"), the resolver takes the normalized names in order of
    first appearance, chooses the first candidate name that also hints
    "short" or "sth" and otherwise the first candidate name, and returns the
    last column of the chosen name.  When the normalized names are pairwise
    distinct this is the first preferred candidate, and otherwise the first
    candidate, in original column order. *)
Theorem pick_prefers_short_among_candidates (cols : list string) :
  existsb (fun c => candidate (normalize c)) cols = true ->
  (exists k c,
      prefer_short (fun k => k) (first_appearance (map normalize cols)) = Some k
      /\ last_named k cols = Some c
      /\ _pick_mvrv_column cols = Ok c)
  /\ (NoDup (map normalize cols) ->
      exists c,
        prefer_short normalize cols = Some c
        /\ _pick_mvrv_column cols = Ok c).
Proof.
  intro H. split.
  - pose proof (pick_by_names cols) as P. simpl in P.
    destruct (prefer_short_exists (fun k => k)
                (first_appearance (map normalize cols))) as [k Hk].
    { now rewrite (existsb_names candidate). }
    rewrite Hk in P. destruct P as (c & Hc & Hp). now exists k, c.
  - intro D. rewrite (pick_distinct_names cols D).
    destruct (prefer_short_exists normalize cols H) as [c Hc].
    exists c. now rewrite Hc.
Qed.

Lemma pick_prefers_short_among_candidates_witness :
  let cols := ["Date"; "mvrv_30d"; "short_term_holder_mvrv"] in
  existsb (fun c => candidate (normalize c)) cols = true
  /\ _pick_mvrv_column cols = Ok "short_term_holder_mvrv".
Proof.
  split; [reflexivity|].
  destruct (pick_prefers_short_among_candidates
              ["Date"; "mvrv_30d"; "short_term_holder_mvrv"] eq_refl)
    as [(k & c & Hk & Hc & Hp) _].
  injection Hk as <-. injection Hc as <-. exact Hp.
Defined.

(** C5, as stated, fails: with no "mvrv" in any name, the first column
    whose name is not excluded is "Foo", but "foo" later in the header has
    the same normalized name and is the column returned. *)
Lemma pick_fallback_returns_later_duplicate :
  let cols := ["Foo"; "bar"; "foo"] in
  existsb (fun c => has_mvrv (normalize c)) cols = false
  /\ first_unexcluded normalize cols = Some "Foo"
  /\ _pick_mvrv_column cols = Ok "foo"
  /\ _pick_mvrv_column cols <> Ok "Foo".
Proof. repeat split; try reflexivity; discriminate. Qed.

(** C5, amended. When no column's normalized name contains "mvrv", the
    resolver takes the normalized names in order of first appearance and
    returns the last column of the first name that is not excluded; when
    the normalized names are pairwise distinct this is the first column, in
    original order, whose name is not excluded.  When every column's
    normalized name is excluded, resolution fails. *)
Theorem pick_falls_back_to_first_unexcluded (cols : list string) :
  (existsb (fun c => has_mvrv (normalize c)) cols = false ->
   match first_unexcluded (fun k => k)
           (first_appearance (map normalize cols)) with
   | Some k =>
       exists c, last_named k cols = Some c /\ _pick_mvrv_column cols = Ok c
   | None => _pick_mvrv_column cols = Raise NoMvrvColumn
   end
   /\ (NoDup (map normalize cols) ->
       _pick_mvrv_column cols =
       match first_unexcluded normalize cols with
       | Some c => Ok c
       | None => Raise NoMvrvColumn
       end))
  /\ (forallb (fun c => is_excluded (normalize c)) cols = true ->
      _pick_mvrv_column cols = Raise NoMvrvColumn).
Proof.
  split.
  - intro H. apply no_mvrv_no_candidate in H. split.
    + pose proof (pick_by_names cols) as P. simpl in P.
      rewrite (prefer_short_None (fun k => k)) in P; [exact P|].
      now rewrite (existsb_names candidate).
    + intro D. rewrite (pick_distinct_names cols D).
      now rewrite (prefer_short_None normalize cols H).
  - intro H. destruct (all_excluded_no_candidate cols H) as [H1 H2].
    pose proof (pick_by_names cols) as P. simpl in P.
    rewrite (prefer_short_None (fun k => k)) in P
      by now rewrite (existsb_names candidate).
    unfold first_unexcluded in P.
    destruct (find _ (first_appearance (map normalize cols))) eqn:E;
      [|exact P].
    apply find_some in E as [Hin Hp].
    assert (existsb (fun k => negb (is_excluded k))
              (first_appearance (map normalize cols)) = true) as C
      by (apply existsb_exists; eauto).
    rewrite (existsb_names (fun k => negb (is_excluded k))) in C. congruence.
Qed.

Lemma pick_falls_back_to_first_unexcluded_witness :
  _pick_mvrv_column ["Date"; "Price"; "Ratio"; "Other"] = Ok "Ratio"
  /\ _pick_mvrv_column ["Date"; "Price"; "MarketCap"] = Raise NoMvrvColumn.
Proof.
  split.
  - destruct (pick_falls_back_to_first_unexcluded
                ["Date"; "Price"; "Ratio"; "Other"]) as [H _].
    destruct (H eq_refl) as [(c & Hc & Hp) _].
    injection Hc as <-. exact Hp.
  - destruct (pick_falls_back_to_first_unexcluded
                ["Date"; "Price"; "MarketCap"]) as [_ H].
    exact (H eq_refl).
Defined.

(** C1, as stated, fails: a column named exactly "mvrv" is passed over for
    an earlier column whose name contains "mvrv" and hints "sth". *)
Lemma pick_passes_over_exact_mvrv :
  let cols := ["sth_mvrv"; "mvrv"] in
  In "mvrv" cols
  /\ normalize "mvrv" = "mvrv"
  /\ _pick_mvrv_column cols = Ok "sth_mvrv"
  /\ _pick_mvrv_column cols <> Ok "mvrv".
Proof.
  repeat split; try reflexivity; try discriminate. right. now left.
Qed.

(** None of the excluded names contains "mvrv". *)
Lemma excluded_no_mvrv (k : string) :
  is_excluded k = true -> has_mvrv k = false.
Proof.
  unfold is_excluded, excluded. simpl. intro H.
  repeat (apply orb_true_iff in H as [H|H];
          [apply String.eqb_eq in H; subst k; reflexivity|]).
  discriminate.
Qed.

Lemma has_mvrv_candidate (k : string) : has_mvrv k = true -> candidate k = true.
Proof.
  intro H. unfold candidate. rewrite H, andb_true_r.
  destruct (is_excluded k) eqn:E; [|reflexivity].
  apply excluded_no_mvrv in E. congruence.
Qed.

Lemma candidate_has_mvrv (k : string) : candidate k = has_mvrv k.
Proof.
  destruct (has_mvrv k) eqn:E; [now apply has_mvrv_candidate|].
  unfold candidate. rewrite E. apply andb_false_r.
Qed.

(** The first name with a property is the same in the names and in the
    names in order of first appearance. *)
Lemma find_first_appearance (p : string -> bool) (l : list string) :
  find p (first_appearance l) = find p l.
Proof.
  induction l as [|x l IH]; simpl; [reflexivity|].
  destruct (p x) eqn:P; [reflexivity|].
  rewrite find_filter, <- IH. apply find_ext. intro y.
  destruct (String.eqb y x) eqn:E; [|reflexivity].
  apply String.eqb_eq in E. subst y. now rewrite P.
Qed.

(** C1, amended. For every table with a column whose normalized name is
    exactly "mvrv", resolution succeeds and returns a column of the table
    whose normalized name contains "mvrv".  The returned column is named
    exactly "mvrv" if and only if no column's normalized name contains
    "mvrv" together with "short" or "sth" and the first column, in
    original order, whose normalized name contains "mvrv" is named exactly
    "mvrv"; it then is the last column of that name, hence that column
    itself when no other column has the name. *)
Theorem pick_with_exact_mvrv_column (cols : list string) (c : string) :
  In c cols ->
  normalize c = "mvrv" ->
  exists r,
    _pick_mvrv_column cols = Ok r
    /\ In r cols
    /\ has_mvrv (normalize r) = true
    /\ (normalize r = "mvrv" <->
        existsb (fun c' => has_mvrv (normalize c')
                           && hints_short (normalize c')) cols = false
        /\ option_map normalize
             (find (fun c' => has_mvrv (normalize c')) cols) = Some "mvrv")
    /\ (normalize r = "mvrv" -> last_named "mvrv" cols = Some r)
    /\ ((forall c', In c' cols -> normalize c' = "mvrv" -> c' = c) ->
        normalize r = "mvrv" -> r = c).
Proof.
  intros Hin Hn.
  pose proof (pick_by_names cols) as P. simpl in P.
  unfold prefer_short in P.
  rewrite !find_first_appearance, !find_map in P.
  rewrite (find_ext (fun a => candidate (normalize a)
                              && hints_short (normalize a))
             (fun a => has_mvrv (normalize a) && hints_short (normalize a)))
    in P by (intro x; now rewrite candidate_has_mvrv).
  rewrite (find_ext (fun a => candidate (normalize a))
             (fun a => has_mvrv (normalize a)))
    in P by (intro x; apply candidate_has_mvrv).
  destruct (find (fun a => has_mvrv (normalize a) && hints_short (normalize a))
              cols) as [p|] eqn:F1; simpl in P.
  - destruct P as (r & L & Hp). exists r.
    destruct (last_named_Some _ _ _ L) as [Hr Hnr].
    apply find_some in F1 as [Hpin F1]. apply andb_true_iff in F1 as [M S].
    assert (normalize r <> "mvrv") as Hneq.
    { rewrite Hnr. intro E. rewrite E in S. discriminate. }
    assert (existsb (fun c' => has_mvrv (normalize c')
                               && hints_short (normalize c')) cols = true)
      as Ex.
    { apply existsb_exists. exists p. split; [exact Hpin|]. now rewrite M, S. }
    split; [exact Hp|]. split; [exact Hr|].
    split; [rewrite Hnr; exact M|]. split; [split|split].
    + intro E. now destruct Hneq.
    + intros [E _]. congruence.
    + intro E. now destruct Hneq.
    + intros _ E. now destruct Hneq.
  - apply find_None_existsb in F1.
    destruct (find (fun a => has_mvrv (normalize a)) cols) as [f|] eqn:F2;
      simpl in P.
    + destruct P as (r & L & Hp). exists r.
      destruct (last_named_Some _ _ _ L) as [Hr Hnr].
      apply find_some in F2 as [_ F2].
      split; [exact Hp|]. split; [exact Hr|].
      split; [rewrite Hnr; exact F2|]. split; [split|split].
      * intro E. split; [exact F1|]. simpl. f_equal. congruence.
      * intros [_ E]. simpl in E. injection E as E. congruence.
      * intro E. rewrite <- E, Hnr. exact L.
      * intros U E. now apply U.
    + exfalso. apply (find_none _ _ F2) in Hin. rewrite Hn in Hin.
      discriminate.
Qed.

Lemma pick_with_exact_mvrv_column_witness :
  let cols := ["Date"; " MVRV "; "mvrv_30d"; "Price"] in
  In " MVRV " cols
  /\ normalize " MVRV " = "mvrv"
  /\ _pick_mvrv_column cols = Ok " MVRV ".
Proof.
  split; [right; now left|]. split; [reflexivity|].
  destruct (pick_with_exact_mvrv_column
              ["Date"; " MVRV "; "mvrv_30d"; "Price"] " MVRV "
              (or_intror (or_introl eq_refl)) eq_refl)
    as (r & Hp & _ & _ & Hiff & _ & Hu).
  assert (normalize r = "mvrv") as E by (apply Hiff; split; reflexivity).
  rewrite Hp. f_equal. apply Hu; [|exact E].
  intros c' [<-|[<-|[<-|[<-|[]]]]] H; try reflexivity; discriminate.
Defined.

End ResolverFacts.

(** * Date, metric and price columns together *)

Module MappingFacts.

Import PyStr PyStrFacts Resolver Spec ListFacts LookupFacts ResolverFacts.

Lemma lower_date_normalize (c : string) :
  lower c = "date" -> normalize c = "date".
Proof. intro H. unfold normalize. now rewrite lower_strip, H. Qed.

Lemma date_guard_passes (cols : list string) :
  date_guard_fails cols = false ->
  exists c, In c cols /\ normalize c = "date".
Proof.
  unfold date_guard_fails. intro H.
  apply andb_false_iff in H as [H|H]; apply negb_false_iff in H;
    apply existsb_exists in H as (x & Hx & Heq);
    apply String.eqb_eq in Heq; subst x.
  - now exists "Date".
  - apply in_map_iff in Hx as (c & Hc & Hin).
    exists c. split; [exact Hin | now apply lower_date_normalize].
Qed.

Lemma date_guard_fails_without_date (cols : list string) :
  (forall c, In c cols -> normalize c <> "date") ->
  date_guard_fails cols = true.
Proof.
  intro H. destruct (date_guard_fails cols) eqn:E; [reflexivity|].
  destruct (date_guard_passes cols E) as (c & Hc & Hn).
  now destruct (H c Hc).
Qed.

Lemma resolve_columns_inv (cols : list string) (m : ColumnMapping) :
  resolve_columns cols = Ok m ->
  date_guard_fails cols = false
  /\ date_col m = PyDict.get_default (_normalize_cols cols) "date" "Date"
  /\ _pick_mvrv_column cols = Ok (mvrv_col m)
  /\ price_col m = PyDict.get (_normalize_cols cols) "price".
Proof.
  unfold resolve_columns.
  destruct (date_guard_fails cols); [discriminate|].
  destruct (_pick_mvrv_column cols) as [r|e]; simpl; [|discriminate].
  intro H. injection H as <-. now repeat split.
Qed.

Lemma resolved_date_lookup (cols : list string) (m : ColumnMapping) :
  resolve_columns cols = Ok m ->
  PyDict.get (_normalize_cols cols) "date" = Some (date_col m).
Proof.
  intro H. destruct (resolve_columns_inv _ _ H) as (G & D & _).
  destruct (date_guard_passes cols G) as (c & Hc & Hn).
  destruct (last_named_exists cols c Hc) as [v Hv].
  rewrite Hn, <- lookup_get in Hv.
  rewrite D. unfold PyDict.get_default. now rewrite Hv.
Qed.

(** A column chosen by the metric resolver is the lookup's entry for its
    own normalized name, and that name is not excluded. *)
Lemma pick_is_lookup_entry (cols : list string) (r : string) :
  _pick_mvrv_column cols = Ok r ->
  last_named (normalize r) cols = Some r
  /\ is_excluded (normalize r) = false.
Proof.
  intro H. pose proof (pick_by_names cols) as P. simpl in P.
  destruct (prefer_short _ _) as [k|] eqn:E.
  - destruct P as (c & Hl & Hp). rewrite H in Hp. injection Hp as <-.
    destruct (last_named_Some _ _ _ Hl) as [_ Hn]. rewrite Hn.
    split; [exact Hl|].
    apply prefer_short_Some in E as [_ Hc]. unfold candidate in Hc.
    apply andb_true_iff in Hc as [Hc _]. now apply negb_true_iff in Hc.
  - unfold first_unexcluded in P.
    destruct (find _ _) as [k|] eqn:F; [|congruence].
    destruct P as (c & Hl & Hp). rewrite H in Hp. injection Hp as <-.
    destruct (last_named_Some _ _ _ Hl) as [_ Hn]. rewrite Hn.
    split; [exact Hl|].
    apply find_some in F as [_ F]. now apply negb_true_iff in F.
Qed.

(** Each resolved column is the last column of its normalized name. *)
Lemma resolved_are_lookup_entries (cols : list string) (m : ColumnMapping) :
  resolve_columns cols = Ok m ->
  last_named "date" cols = Some (date_col m)
  /\ last_named (normalize (mvrv_col m)) cols = Some (mvrv_col m)
  /\ is_excluded (normalize (mvrv_col m)) = false
  /\ (forall p, price_col m = Some p -> last_named "price" cols = Some p).
Proof.
  intro H. pose proof (resolved_date_lookup _ _ H) as D.
  destruct (resolve_columns_inv _ _ H) as (_ & _ & P & Q).
  rewrite lookup_get in D.
  destruct (pick_is_lookup_entry _ _ P) as [P1 P2].
  repeat split; try assumption.
  intros p Hp. now rewrite <- lookup_get, <- Q.
Qed.

(** The guard of [main] lower-cases without trimming: a header whose date
    column carries a leading space is rejected, although the lookup would
    hold it under "date". *)
Example untrimmed_date_header_is_rejected :
  PyDict.get (_normalize_cols [" Date"; "MVRV"]) "date" = Some " Date"
  /\ resolve_columns [" Date"; "MVRV"] =
     Raise (ExpectedDateColumn [" Date"; "MVRV"]).
Proof. split; reflexivity. Qed.

(** C2. The date column is the lookup's entry for the normalized name
    "date": resolution fails with the error that names the expected Date
    column whenever no column has that normalized name, so does the body of
    [main] on a non-empty table, and a resolved date column always is a
    column of the table whose normalized name is "date". *)
Theorem date_column_is_looked_up_or_missing (cols : list string) :
  ((forall c, In c cols -> normalize c <> "date") ->
   resolve_columns cols = Raise (ExpectedDateColumn cols)
   /\ message (ExpectedDateColumn cols) = Some "Expected a 'Date' column, got "
   /\ forall num parse_num show_num nan_as_str (df : DataFrame num),
        columns df = cols ->
        df_empty df = false ->
        build_data parse_num show_num nan_as_str df = Raise (ExpectedDateColumn cols))
  /\ (forall m,
      resolve_columns cols = Ok m ->
      PyDict.get (_normalize_cols cols) "date" = Some (date_col m)
      /\ In (date_col m) cols
      /\ normalize (date_col m) = "date").
Proof.
  split.
  - intro H. pose proof (date_guard_fails_without_date cols H) as G.
    assert (resolve_columns cols = Raise (ExpectedDateColumn cols)) as R
      by (unfold resolve_columns; now rewrite G).
    split; [exact R|]. split; [reflexivity|].
    intros num parse_num show_num nan_as_str df Hc He.
    unfold build_data. now rewrite He, Hc, R.
  - intros m H. pose proof (resolved_date_lookup _ _ H) as D.
    split; [exact D|].
    rewrite lookup_get in D. exact (last_named_Some _ _ _ D).
Qed.

Lemma date_column_is_looked_up_or_missing_witness :
  resolve_columns [" Datum"; "MVRV"] =
  Raise (ExpectedDateColumn [" Datum"; "MVRV"])
  /\ normalize "DATE" = "date"
  /\ resolve_columns ["Price"; "DATE"; "MVRV"] =
     Ok {| date_col := "DATE"; mvrv_col := "MVRV";
           price_col := Some "Price" |}.
Proof.
  split.
  - refine (proj1 (proj1 (date_column_is_looked_up_or_missing
                            [" Datum"; "MVRV"]) _)).
    intros c [<-|[<-|[]]]; discriminate.
  - destruct (proj2 (date_column_is_looked_up_or_missing
                       ["Price"; "DATE"; "MVRV"])
                {| date_col := "DATE"; mvrv_col := "MVRV";
                   price_col := Some "Price" |} eq_refl)
      as (_ & _ & H).
    split; [exact H | reflexivity].
Defined.

(** C9. "date" and "price" are excluded names, and whenever resolution
    succeeds the metric column has a normalized name that is not excluded,
    so it differs from the date column and from the price column. *)
Theorem metric_column_differs_from_date_and_price
    (cols : list string) (m : ColumnMapping) :
  resolve_columns cols = Ok m ->
  is_excluded "date" = true
  /\ is_excluded "price" = true
  /\ is_excluded (normalize (mvrv_col m)) = false
  /\ mvrv_col m <> date_col m
  /\ (forall p, price_col m = Some p -> mvrv_col m <> p).
Proof.
  intro H.
  destruct (resolved_are_lookup_entries _ _ H) as (D & _ & X & P).
  apply last_named_Some in D as [_ D].
  repeat split; try assumption.
  - intro E. rewrite E, D in X. discriminate.
  - intros p Hp E. apply P, last_named_Some in Hp as [_ Hp].
    rewrite E, Hp in X. discriminate.
Qed.

Lemma metric_column_differs_from_date_and_price_witness :
  resolve_columns ["Date"; "price"; "sth_mvrv"] =
  Ok {| date_col := "Date"; mvrv_col := "sth_mvrv";
        price_col := Some "price" |}
  /\ "sth_mvrv" <> "Date"
  /\ "sth_mvrv" <> "price".
Proof.
  split; [reflexivity|].
  destruct (metric_column_differs_from_date_and_price
              ["Date"; "price"; "sth_mvrv"]
              {| date_col := "Date"; mvrv_col := "sth_mvrv";
                 price_col := Some "price" |} eq_refl)
    as (_ & _ & _ & Hd & Hp).
  split; [exact Hd | exact (Hp "price" eq_refl)].
Defined.

Lemma find_app {A} (p : A -> bool) (l1 l2 : list A) :
  find p (l1 ++ l2)%list =
  match find p l1 with
  | Some x => Some x
  | None => find p l2
  end.
Proof.
  induction l1 as [|x l1 IH]; simpl; [reflexivity|].
  destruct (p x); [reflexivity | exact IH].
Qed.

Lemma last_named_app (k : string) (pre post : list string) :
  last_named k (pre ++ post)%list =
  match last_named k post with
  | Some c => Some c
  | None => last_named k pre
  end.
Proof. unfold last_named. now rewrite rev_app_distr, find_app. Qed.

(** A column followed by another column of the same normalized name is not
    the lookup's entry for that name. *)
Lemma last_named_skips_earlier (pre post : list string) (c1 c2 : string) :
  In c2 post ->
  normalize c2 = normalize c1 ->
  exists c,
    last_named (normalize c1) (pre ++ c1 :: post)%list = Some c
    /\ last_named (normalize c1) post = Some c
    /\ In c post.
Proof.
  intros Hin Hn. destruct (last_named_exists post c2 Hin) as [c Hc].
  rewrite Hn in Hc. exists c.
  change (pre ++ c1 :: post)%list with (pre ++ [c1] ++ post)%list.
  rewrite app_assoc, last_named_app, Hc.
  repeat split. exact (proj1 (last_named_Some _ _ _ Hc)).
Qed.

(** C10, as stated, fails: the earlier of two columns with the same
    normalized name is not invisible to resolution.  It keeps the place of
    the name in the lookup, so with it the metric column is "mvrv_a" and
    without it "mvrv_b"; and the Date guard reads the columns themselves,
    so the header date, " DATE ", mvrv resolves while " DATE ", mvrv is
    rejected. *)
Lemma earlier_duplicate_changes_resolution :
  normalize "MVRV_a" = normalize "mvrv_a"
  /\ resolve_columns ["Date"; "MVRV_a"; "mvrv_b"; "mvrv_a"] =
     Ok {| date_col := "Date"; mvrv_col := "mvrv_a"; price_col := None |}
  /\ resolve_columns ["Date"; "mvrv_b"; "mvrv_a"] =
     Ok {| date_col := "Date"; mvrv_col := "mvrv_b"; price_col := None |}
  /\ normalize "date" = normalize " DATE "
  /\ resolve_columns ["date"; " DATE "; "mvrv"] =
     Ok {| date_col := " DATE "; mvrv_col := "mvrv"; price_col := None |}
  /\ resolve_columns [" DATE "; "mvrv"] =
     Raise (ExpectedDateColumn [" DATE "; "mvrv"]).
Proof. repeat split. Qed.

(** C10, amended. When a column is followed by a different column with
    the same normalized name, the lookup maps that name to the last such
    column (to the later one when there are just the two), the earlier
    column is never the date, metric or price column, and the lookup maps
    every name to the same column with the earlier column as without it. *)
Theorem earlier_duplicate_is_never_selected
    (pre post : list string) (c1 c2 : string) :
  In c2 post ->
  normalize c2 = normalize c1 ->
  ~ In c1 post ->
  let cols := (pre ++ c1 :: post)%list in
  (exists c,
      PyDict.get (_normalize_cols cols) (normalize c1) = Some c
      /\ last_named (normalize c1) post = Some c
      /\ c <> c1)
  /\ ((forall x, In x post -> normalize x = normalize c1 -> x = c2) ->
      PyDict.get (_normalize_cols cols) (normalize c1) = Some c2)
  /\ (forall r, _pick_mvrv_column cols = Ok r -> r <> c1)
  /\ (forall m,
      resolve_columns cols = Ok m ->
      date_col m <> c1 /\ mvrv_col m <> c1 /\ price_col m <> Some c1)
  /\ (forall k,
      PyDict.get (_normalize_cols cols) k =
      PyDict.get (_normalize_cols (pre ++ post)%list) k).
Proof.
  intros Hin Hn Hfresh cols.
  destruct (last_named_skips_earlier pre post c1 c2 Hin Hn)
    as (c & Hc & Hpost & Hcin).
  fold cols in Hc.
  assert (c <> c1) as Hneq by (intros ->; contradiction).
  assert (forall r, last_named (normalize r) cols = Some r -> r <> c1) as Hsel.
  { intros r Hr ->. rewrite Hc in Hr. injection Hr as ->. now apply Hneq. }
  split; [|split; [|split; [|split]]].
  - exists c. rewrite lookup_get. now repeat split.
  - intro U. rewrite lookup_get, Hc.
    destruct (last_named_Some _ _ _ Hpost) as [H1 H2].
    now rewrite (U c H1 H2).
  - intros r Hr. apply Hsel. exact (proj1 (pick_is_lookup_entry _ _ Hr)).
  - intros m Hm.
    destruct (resolved_are_lookup_entries _ _ Hm) as (D & M & _ & P).
    split; [|split].
    + apply Hsel. destruct (last_named_Some _ _ _ D) as [_ E].
      now rewrite E.
    + now apply Hsel.
    + intro E. specialize (P c1 E). apply (Hsel c1); [|reflexivity].
      destruct (last_named_Some _ _ _ P) as [_ E']. now rewrite E'.
  - intro k. rewrite !lookup_get. unfold cols.
    change (pre ++ c1 :: post)%list with (pre ++ [c1] ++ post)%list.
    rewrite app_assoc, !last_named_app.
    destruct (last_named k post) eqn:L; [reflexivity|].
    unfold last_named at 1. simpl.
    destruct (String.eqb (normalize c1) k) eqn:E; [|reflexivity].
    apply String.eqb_eq in E. rewrite <- E, Hpost in L. discriminate.
Qed.

Lemma earlier_duplicate_is_never_selected_witness :
  let cols := ["Date"; "MVRV"; "price"; "mvrv"; "Price"] in
  PyDict.get (_normalize_cols cols) "mvrv" = Some "mvrv"
  /\ resolve_columns cols =
     Ok {| date_col := "Date"; mvrv_col := "mvrv";
           price_col := Some "Price" |}
  /\ "mvrv" <> "MVRV".
Proof.
  destruct (earlier_duplicate_is_never_selected
              ["Date"] ["price"; "mvrv"; "Price"] "MVRV" "mvrv")
    as (_ & Hget & Hpick & _).
  - right. now left.
  - reflexivity.
  - intros [H|[H|[H|[]]]]; discriminate.
  - split; [|split; [reflexivity|]].
    + apply Hget. intros x [<-|[<-|[<-|[]]]] Hx; try reflexivity; discriminate.
    + exact (Hpick "mvrv" eq_refl).
Defined.

End MappingFacts.

(** * The body of [main] *)

Module PipelineFacts.

Import PyStr Resolver Unwrapper.

Section Rows.

Context {num : Type}.
Variable parse_num : string -> option num.
Variable show_num : num -> string.
Variable nan_as_str : option string.

(** [astype(str)] never makes a present cell missing; what it makes of a
    missing one is the parameter. *)
Lemma astype_str_present (v : value num) :
  notna v = true -> notna (astype_str show_num nan_as_str v) = true.
Proof. destruct v; [discriminate | reflexivity | reflexivity]. Qed.

(** What one row contributes: one item when its date cell is not missing
    after [astype(str)] and its metric cell parses, and otherwise nothing. *)
Lemma row_items_by_cells (cols : list string) (m : ColumnMapping)
    (row : list (value num)) :
  row_items parse_num show_num nan_as_str cols m row =
  if notna (astype_str show_num nan_as_str (cell cols row (date_col m)))
     && notna (to_numeric parse_num (cell cols row (mvrv_col m)))
  then [make_item (coerce parse_num show_num nan_as_str (keep cols m row))]
  else [].
Proof.
  unfold row_items, dropna. simpl.
  destruct (_ && _); reflexivity.
Qed.

(** [data] is put together row by row. *)
Lemma data_by_rows (cols : list string) (m : ColumnMapping)
    (rs : list (list (value num))) :
  map make_item
    (dropna (map (coerce parse_num show_num nan_as_str) (map (keep cols m) rs))) =
  flat_map (row_items parse_num show_num nan_as_str cols m) rs.
Proof.
  induction rs as [|r rs IH]; [reflexivity|].
  simpl flat_map. rewrite <- IH. unfold row_items, dropna. simpl.
  destruct (_ && _); reflexivity.
Qed.

Lemma build_data_by_rows (df : DataFrame num) (m : ColumnMapping) :
  df_empty df = false ->
  resolve_columns (columns df) = Ok m ->
  build_data parse_num show_num nan_as_str df =
  Ok (flat_map (row_items parse_num show_num nan_as_str (columns df) m) (rows df)).
Proof.
  intros He Hm. unfold build_data. rewrite He, Hm. simpl.
  now rewrite data_by_rows.
Qed.


(** The frame of the specification's end-to-end example: the second row's
    metric does not parse and only the first row yields a record. *)
Example unparsable_metric_row_is_dropped (x p q : num) :
  parse_num "1.23" = Some x ->
  parse_num "abc" = None ->
  build_data parse_num show_num nan_as_str
    {| columns := ["Date"; "ShortTermHolderMVRV"; "Price"];
       rows := [[Str "2024-01-01"; Str "1.23"; Num p];
                [Str "2024-01-02"; Str "abc"; Num q]] |}
  = Ok [ {| date := Str "2024-01-01"; sth_mvrv := Num x;
            price := Some (Num p) |} ].
Proof.
  intros H1 H2. unfold build_data. simpl.
  unfold dropna, coerce, keep, cell. simpl. now rewrite H1, H2.
Qed.

End Rows.

(** C8. A response text that is blank after trimming makes the unwrapper,
    and with it the body of [main], raise the empty-response error; the
    outcome is the same for every CSV parser, so none has been consulted. *)
Theorem blank_response_raises_before_parsing
    (num : Type) (parse_num : string -> option num) (show_num : num -> string)
    (nan_as_str : option string)
    (read_csv : string -> result (DataFrame num)) (raw : string) :
  strip raw = EmptyString ->
  unwrap raw = Raise EmptyResponse
  /\ process_text parse_num show_num nan_as_str read_csv raw = Raise EmptyResponse
  /\ (forall resp,
      text resp = raw ->
      ((400 <=? status_code resp) && (status_code resp <? 600))%nat = false ->
      handle_response parse_num show_num nan_as_str read_csv resp = Raise EmptyResponse).
Proof.
  intro H. pose proof (UnwrapperFacts.unwrap_blank raw H) as U.
  assert (process_text parse_num show_num nan_as_str read_csv raw = Raise EmptyResponse)
    as P by (unfold process_text; now rewrite U).
  repeat split; try assumption.
  intros resp Ht Hs. unfold handle_response. now rewrite Hs, Ht.
Qed.

Lemma blank_response_raises_before_parsing_witness :
  let raw := String newline (String " "%char EmptyString) in
  strip raw = EmptyString
  /\ process_text (fun _ : string => @None nat) (fun _ : nat => EmptyString) None
       (fun _ => Raise ParserError) raw
     = Raise EmptyResponse.
Proof.
  split; [reflexivity|].
  exact (proj1 (proj2 (blank_response_raises_before_parsing
                         nat (fun _ => None) (fun _ => EmptyString) None
                         (fun _ => Raise ParserError)
                         (String newline (String " "%char EmptyString))
                         eq_refl))).
Defined.

Section RowsOfAFrame.

Context {num : Type}.
Variable parse_num : string -> option num.
Variable show_num : num -> string.


Lemma astype_str_nan_text (v : value num) :
  notna (astype_str show_num missing_becomes_nan_text v) = true.
Proof. destruct v; reflexivity. Qed.

(** Where [astype(str)] renders a missing cell as the text "nan" (pandas
    1.x and 2.x), [dropna] finds no date missing: a row without date whose
    metric parses yields a record, dated "nan". *)
Lemma row_without_date_is_kept_under_nan_text
    (cols : list string) (m : ColumnMapping) (row : list (value num)) :
  cell cols row (date_col m) = NaN ->
  notna (to_numeric parse_num (cell cols row (mvrv_col m))) = true ->
  exists item,
    row_items parse_num show_num missing_becomes_nan_text cols m row = [item]
    /\ date item = Str "nan".
Proof.
  intros Hd Hv. rewrite row_items_by_cells, astype_str_nan_text, Hv. simpl.
  eexists. split; [reflexivity|]. simpl. now rewrite Hd.
Qed.

End RowsOfAFrame.



End PipelineFacts.

(** * Further laws of the unwrapper *)

Module UnwrapperLaws.

Import PyStr PyStrFacts Unwrapper UnwrapperFacts Spec.

Lemma lstrip_empty_iff (s : string) :
  lstrip s = EmptyString <-> all_space s = true.
Proof.
  induction s as [|c s IH]; simpl; [tauto|].
  destruct (is_space c); simpl; [exact IH | split; discriminate].
Qed.

Lemma rstrip_empty_iff (s : string) :
  rstrip s = EmptyString <-> all_space s = true.
Proof.
  induction s as [|c s IH]; simpl; [tauto|].
  destruct (rstrip s) as [|d r].
  - destruct (is_space c); simpl; [|split; discriminate].
    split; intros _; [now apply IH | reflexivity].
  - split; [discriminate|]. intro H.
    apply andb_true_iff in H as [_ H]. apply IH in H. discriminate.
Qed.

Lemma strip_empty_iff (s : string) :
  strip s = EmptyString <-> all_space s = true.
Proof.
  unfold strip. split; intro H.
  - apply rstrip_empty_iff in H. apply lstrip_empty_iff.
    pose proof (lstrip_head s) as Hh.
    destruct (lstrip s) as [|c t]; [reflexivity|].
    simpl in H. now rewrite Hh in H.
  - apply lstrip_empty_iff in H. now rewrite H.
Qed.

Lemma rstrip_snoc (s : string) (q : ascii) :
  is_space q = false ->
  rstrip (s ++ String q EmptyString) = s ++ String q EmptyString.
Proof.
  intro Hq. induction s as [|c s IH]; simpl.
  - now rewrite Hq.
  - rewrite IH. destruct (s ++ String q EmptyString) eqn:E; [|reflexivity].
    destruct s; discriminate.
Qed.

Lemma strip_quote_csv (t : string) : strip (quote_csv t) = quote_csv t.
Proof.
  unfold strip, quote_csv.
  rewrite lstrip_fixed by reflexivity.
  change (String dquote (escape_newlines t ++ String dquote EmptyString))
    with (String dquote (escape_newlines t) ++ String dquote EmptyString).
  now apply rstrip_snoc.
Qed.

Lemma escape_head_not_n (c : ascii) (t : string) :
  Ascii.eqb c "n"%char = false ->
  match escape_newlines (String c t) with
  | EmptyString => True
  | String d _ => Ascii.eqb d "n"%char = false
  end.
Proof.
  intro H. simpl. destruct (Ascii.eqb c newline); [reflexivity | exact H].
Qed.

(** Replacing undoes escaping on a text that holds no backslash-n of its
    own. *)
Lemma replace_escape_newlines (t : string) :
  contains escaped_newline t = false ->
  replace_escaped_newlines (escape_newlines t) = t.
Proof.
  induction t as [|c t IH]; intro H; [reflexivity|].
  rewrite contains_cons in H. apply orb_false_iff in H as [H1 H2].
  specialize (IH H2). simpl escape_newlines.
  destruct (Ascii.eqb c newline) eqn:Ec.
  - apply Ascii.eqb_eq in Ec. subst c. rewrite replace_cons2. simpl.
    now rewrite IH.
  - destruct t as [|d t].
    + reflexivity.
    + rewrite startswith_escape in H1.
      assert (forall e r, escape_newlines (String d t) = String e r ->
                Ascii.eqb c backslash && Ascii.eqb e "n"%char = false) as Hn.
      { intros e r He. simpl in He.
        destruct (Ascii.eqb d newline); injection He as <- _.
        - apply andb_false_r.
        - exact H1. }
      destruct (escape_newlines (String d t)) as [|e r] eqn:E.
      * simpl in E. destruct (Ascii.eqb d newline); discriminate.
      * rewrite replace_cons2, (Hn e r eq_refl). now rewrite IH.
Qed.

(** X1. The unwrapper rejects a response text exactly when every one of
    its characters is whitespace (the empty text included); it raises no
    other error. *)
Theorem unwrap_fails_iff_all_whitespace (raw : string) :
  (unwrap raw = Raise EmptyResponse <-> all_space raw = true)
  /\ (forall e, unwrap raw = Raise e -> e = EmptyResponse)
  /\ (all_space raw = false -> exists t, unwrap raw = Ok t).
Proof.
  assert (forall e, unwrap raw = Raise e ->
            e = EmptyResponse /\ strip raw = EmptyString) as Hinv.
  { intros e. unfold unwrap. destruct (strip raw); simpl.
    - intro H. injection H as <-. now split.
    - discriminate. }
  split; [split|split].
  - intro H. apply strip_empty_iff. exact (proj2 (Hinv _ H)).
  - intro H. apply unwrap_blank. now apply strip_empty_iff.
  - intros e H. exact (proj1 (Hinv e H)).
  - intro H. rewrite unwrap_nonblank; [eauto|].
    intro E. apply strip_empty_iff in E. congruence.
Qed.

Lemma unwrap_quote_csv_exact (t : string) :
  contains escaped_newline t = false ->
  unwrap (quote_csv t) = Ok t.
Proof.
  intro H. rewrite unwrap_nonblank.
  - rewrite strip_quote_csv. unfold quote_csv.
    rewrite is_quoted_wrapped, slice_wrapped.
    now rewrite replace_escape_newlines.
  - rewrite strip_quote_csv. discriminate.
Qed.

Lemma lstrip_app_space (w s : string) :
  all_space w = true -> lstrip (w ++ s) = lstrip s.
Proof.
  induction w as [|c w IH]; simpl; intro H; [reflexivity|].
  apply andb_true_iff in H as [Hc Hw]. rewrite Hc. exact (IH Hw).
Qed.

Lemma rstrip_app_space (s w : string) :
  all_space w = true -> rstrip (s ++ w) = rstrip s.
Proof.
  intro H. induction s as [|c s IH]; simpl.
  - now apply rstrip_empty_iff.
  - now rewrite IH.
Qed.

Lemma lstrip_app (s w : string) :
  lstrip (s ++ w) =
  match lstrip s with
  | EmptyString => lstrip w
  | t => t ++ w
  end.
Proof.
  induction s as [|c s IH]; simpl; [now destruct (lstrip w)|].
  destruct (is_space c); [exact IH | reflexivity].
Qed.

Lemma strip_surrounded (w1 s w2 : string) :
  all_space w1 = true -> all_space w2 = true ->
  strip (w1 ++ s ++ w2) = strip s.
Proof.
  intros H1 H2. unfold strip.
  rewrite (lstrip_app_space _ _ H1), lstrip_app.
  destruct (lstrip s) as [|c t] eqn:E.
  - apply lstrip_empty_iff in H2. now rewrite H2.
  - now apply rstrip_app_space.
Qed.

Lemma unwrap_surrounded (w1 raw w2 : string) :
  all_space w1 = true -> all_space w2 = true ->
  unwrap (w1 ++ raw ++ w2) = unwrap raw.
Proof.
  intros H1 H2. unfold unwrap. now rewrite (strip_surrounded _ _ _ H1 H2).
Qed.

(** X2. Round trip of the quoting: a text that holds no backslash-n of its
    own, with its newlines written as backslash-n and put between double
    quotes, is unwrapped to the text itself, whitespace inside the quotes
    included, and whatever whitespace surrounds the quoted text. *)
Theorem unwrap_inverts_quoting (w1 t w2 : string) :
  contains escaped_newline t = false ->
  all_space w1 = true ->
  all_space w2 = true ->
  unwrap (w1 ++ quote_csv t ++ w2) = Ok t.
Proof.
  intros H H1 H2.
  now rewrite (unwrap_surrounded _ _ _ H1 H2), unwrap_quote_csv_exact.
Qed.

Lemma unwrap_inverts_quoting_witness :
  let t := " Date,MVRV" ++ String newline ("2024-01-01,1.5" ++
             String newline " ") in
  contains escaped_newline t = false
  /\ quote_csv t =
     String dquote (" Date,MVRV\n2024-01-01,1.5\n " ++ String dquote EmptyString)
  /\ unwrap (" " ++ quote_csv t ++ String newline EmptyString) = Ok t.
Proof.
  split; [reflexivity|]. split; [reflexivity|].
  exact (unwrap_inverts_quoting " "
           (" Date,MVRV" ++ String newline ("2024-01-01,1.5" ++
              String newline " "))
           (String newline EmptyString) eq_refl eq_refl eq_refl).
Defined.

(** X3. Whitespace around the response text does not matter: the
    unwrapper gives the same outcome, result or error, whatever whitespace
    is put before and after the text. *)
Theorem unwrap_ignores_outer_whitespace (w1 raw w2 : string) :
  all_space w1 = true ->
  all_space w2 = true ->
  unwrap (w1 ++ raw ++ w2) = unwrap raw
  /\ unwrap (strip raw) = unwrap raw.
Proof.
  intros H1 H2. split; [now apply unwrap_surrounded|].
  unfold unwrap. now rewrite strip_idem.
Qed.

Lemma unwrap_ignores_outer_whitespace_witness :
  let w := String newline " " in
  all_space w = true
  /\ unwrap (w ++ "a,b\n1,2" ++ w) = unwrap "a,b\n1,2"
  /\ unwrap "a,b\n1,2" = Ok ("a,b" ++ String newline "1,2").
Proof.
  split; [reflexivity|]. split; [|reflexivity].
  exact (proj1 (unwrap_ignores_outer_whitespace
                  (String newline " ") "a,b\n1,2" (String newline " ")
                  eq_refl eq_refl)).
Defined.

End UnwrapperLaws.

(** * Further laws of the column lookup *)

Module LookupLaws.

Import PyStr PyStrFacts Resolver Spec ListFacts LookupFacts.

Lemma lower_char_idem (c : ascii) : lower_char (lower_char c) = lower_char c.
Proof.
  destruct c as [[] [] [] [] [] [] [] []]; vm_compute; reflexivity.
Qed.

Lemma lower_idem (s : string) : lower (lower s) = lower s.
Proof.
  induction s as [|c s IH]; simpl; [reflexivity|].
  now rewrite lower_char_idem, IH.
Qed.

Lemma normalize_idem (c : string) : normalize (normalize c) = normalize c.
Proof.
  unfold normalize. now rewrite <- lower_strip, strip_idem, lower_idem.
Qed.

Lemma last_named_None (k : string) (cols : list string) :
  last_named k cols = None <-> forall c, In c cols -> normalize c <> k.
Proof.
  unfold last_named. split.
  - intros H c Hc E. apply in_rev in Hc.
    apply (find_none _ _ H) in Hc. rewrite E, String.eqb_refl in Hc.
    discriminate.
  - intro H. destruct (find _ (List.rev cols)) as [c|] eqn:E; [|reflexivity].
    apply find_some in E as [Hc E]. apply String.eqb_eq in E.
    apply in_rev in Hc. now destruct (H c Hc).
Qed.

(** X4. [_normalize_cols] finds a name exactly when some column has it as
    its normalized name; what it finds is a column of the table with that
    normalized name, and the name is in normal form: a name with capitals
    or outer whitespace, such as "Date", is never found. *)
Theorem lookup_finds_exactly_the_normalized_names
    (cols : list string) (k : string) :
  (PyDict.get (_normalize_cols cols) k = None <->
   forall c, In c cols -> normalize c <> k)
  /\ (forall v,
      PyDict.get (_normalize_cols cols) k = Some v ->
      In v cols /\ normalize v = k /\ normalize k = k).
Proof.
  rewrite lookup_get. split.
  - apply last_named_None.
  - intros v H. destruct (last_named_Some _ _ _ H) as [Hin Hn].
    repeat split; try assumption. rewrite <- Hn. apply normalize_idem.
Qed.

Lemma NoDup_first_appearance (l : list string) : NoDup (first_appearance l).
Proof.
  induction l as [|x l IH]; simpl; constructor.
  - intro H. apply filter_In in H as [_ H].
    now rewrite String.eqb_refl in H.
  - now apply NoDup_filter.
Qed.

Lemma length_first_appearance (l : list string) :
  length (first_appearance l) <= length l.
Proof.
  induction l as [|x l IH]; simpl; [lia|].
  pose proof (filter_length_le (fun y => negb (String.eqb y x))
                (first_appearance l)). lia.
Qed.

Lemma filter_keeps_all {A} (p : A -> bool) (l : list A) :
  length (filter p l) = length l -> forall y, In y l -> p y = true.
Proof.
  induction l as [|x l IH]; simpl; intros H y Hy; [destruct Hy|].
  pose proof (filter_length_le p l) as Hle.
  destruct (p x) eqn:E; simpl in H; [|lia].
  destruct Hy as [<-|Hy]; [exact E | apply IH; [lia | exact Hy]].
Qed.

Lemma first_appearance_NoDup_id (l : list string) :
  NoDup l -> first_appearance l = l.
Proof.
  induction 1 as [|x l Hx Hl IH]; simpl; [reflexivity|].
  rewrite IH. f_equal. apply forallb_filter_id. apply forallb_forall.
  intros y Hy. apply negb_true_iff.
  destruct (String.eqb y x) eqn:E; [|reflexivity].
  apply String.eqb_eq in E. now subst.
Qed.

Lemma first_appearance_full_length (l : list string) :
  length (first_appearance l) = length l -> NoDup l.
Proof.
  induction l as [|x l IH]; simpl; intro H; constructor.
  - pose proof (filter_length_le (fun y => negb (String.eqb y x))
                  (first_appearance l)) as H1.
    pose proof (length_first_appearance l) as H2.
    intro Hx. apply In_first_appearance in Hx.
    assert (length (filter (fun y => negb (String.eqb y x))
                      (first_appearance l))
            = length (first_appearance l)) as E by lia.
    pose proof (filter_keeps_all _ _ E x Hx) as C. simpl in C.
    now rewrite String.eqb_refl in C.
  - apply IH.
    pose proof (filter_length_le (fun y => negb (String.eqb y x))
                  (first_appearance l)) as H1.
    pose proof (length_first_appearance l) as H2. lia.
Qed.

(** X5. The keys of [_normalize_cols] are pairwise distinct and at most as
    many as the columns; no column is lost from the lookup exactly when the
    normalized names of the columns are pairwise distinct. *)
Theorem lookup_keys_distinct_and_counted (cols : list string) :
  NoDup (PyDict.keys (_normalize_cols cols))
  /\ length (_normalize_cols cols) <= length cols
  /\ (length (_normalize_cols cols) = length cols <->
      NoDup (map normalize cols)).
Proof.
  assert (length (_normalize_cols cols)
          = length (first_appearance (map normalize cols))) as L.
  { rewrite <- lookup_keys. unfold PyDict.keys. now rewrite length_map. }
  rewrite lookup_keys, L.
  pose proof (length_first_appearance (map normalize cols)) as Hle.
  rewrite length_map in Hle.
  split; [apply NoDup_first_appearance|]. split; [exact Hle|]. split.
  - intro H. apply first_appearance_full_length. now rewrite length_map.
  - intro H. now rewrite (first_appearance_NoDup_id _ H), length_map.
Qed.

Lemma NoDup_map_injective {A B} (f : A -> B) (l : list A) (a b : A) :
  NoDup (map f l) -> In a l -> In b l -> f a = f b -> a = b.
Proof.
  induction l as [|x l IH]; simpl; intros H Ha Hb E; [destruct Ha|].
  inversion H as [|? ? Hx Hl]; subst.
  destruct Ha as [<-|Ha], Hb as [<-|Hb]; try reflexivity.
  - destruct Hx. rewrite E. now apply in_map.
  - destruct Hx. rewrite <- E. now apply in_map.
  - now apply IH.
Qed.

(** X6. When the normalized names of the columns are pairwise distinct,
    [_normalize_cols] lists the columns in their original order, each under
    its normalized name, and every column is found under its own name. *)
Theorem lookup_of_distinct_names_is_faithful (cols : list string) :
  NoDup (map normalize cols) ->
  _normalize_cols cols = map (fun c => (normalize c, c)) cols
  /\ (forall c, In c cols ->
      PyDict.get (_normalize_cols cols) (normalize c) = Some c).
Proof.
  intro H. split; [now apply lookup_distinct|].
  intros c Hc. rewrite lookup_get.
  destruct (last_named_exists cols c Hc) as [v Hv]. rewrite Hv.
  destruct (last_named_Some _ _ _ Hv) as [Hin Hn].
  f_equal. exact (NoDup_map_injective normalize cols v c H Hin Hc Hn).
Qed.

Lemma lookup_of_distinct_names_is_faithful_witness :
  let cols := [" Date"; "STH MVRV"; "Price "] in
  NoDup (map normalize cols)
  /\ _normalize_cols cols =
     [("date", " Date"); ("sth mvrv", "STH MVRV"); ("price", "Price ")].
Proof.
  assert (NoDup (map normalize [" Date"; "STH MVRV"; "Price "])) as H.
  { repeat constructor; simpl; intuition discriminate. }
  split; [exact H|].
  exact (proj1 (lookup_of_distinct_names_is_faithful
                  [" Date"; "STH MVRV"; "Price "] H)).
Defined.

End LookupLaws.

(** * Further laws of the metric-column resolver *)

Module ResolverLaws.

Import PyStr PyStrFacts Resolver Spec ListFacts LookupFacts ResolverFacts.
Import MappingFacts.

Lemma existsb_negb_false {A} (p : A -> bool) (l : list A) :
  existsb (fun a => negb (p a)) l = false <-> forallb p l = true.
Proof.
  induction l as [|x l IH]; simpl; [tauto|].
  destruct (p x); simpl; [exact IH | split; discriminate].
Qed.

Lemma pick_failure (cols : list string) (e : error) :
  _pick_mvrv_column cols = Raise e ->
  e = NoMvrvColumn
  /\ forallb (fun c => is_excluded (normalize c)) cols = true.
Proof.
  intro H. pose proof (pick_by_names cols) as P. simpl in P.
  destruct (prefer_short _ _) as [k|].
  { destruct P as (c & _ & P). congruence. }
  unfold first_unexcluded in P.
  destruct (find _ _) as [k|] eqn:F.
  { destruct P as (c & _ & P). congruence. }
  split; [congruence|].
  apply find_None_existsb in F.
  rewrite (existsb_names (fun k => negb (is_excluded k))) in F.
  now apply existsb_negb_false in F.
Qed.

Lemma pick_success (cols : list string) :
  existsb (fun c => negb (is_excluded (normalize c))) cols = true ->
  exists r, _pick_mvrv_column cols = Ok r.
Proof.
  intro H. destruct (_pick_mvrv_column cols) as [r|e] eqn:E; [eauto|].
  apply pick_failure in E as [_ E].
  apply existsb_negb_false in E. congruence.
Qed.

(** X7. A column returned by [_pick_mvrv_column] is a column of the table,
    its normalized name is none of the excluded names, and it is the column
    that the lookup holds for that name: the resolver never returns a date,
    time, timestamp, price or cap column and never invents a name. *)
Theorem pick_returns_unexcluded_column_of_table
    (cols : list string) (r : string) :
  _pick_mvrv_column cols = Ok r ->
  In r cols
  /\ is_excluded (normalize r) = false
  /\ PyDict.get (_normalize_cols cols) (normalize r) = Some r.
Proof.
  intro H. destruct (pick_is_lookup_entry _ _ H) as [L X].
  rewrite lookup_get. repeat split; try assumption.
  exact (proj1 (last_named_Some _ _ _ L)).
Qed.

Lemma pick_returns_unexcluded_column_of_table_witness :
  _pick_mvrv_column ["Date"; "Price"; "Supply"] = Ok "Supply"
  /\ In "Supply" ["Date"; "Price"; "Supply"]
  /\ is_excluded (normalize "Supply") = false.
Proof.
  split; [reflexivity|].
  destruct (pick_returns_unexcluded_column_of_table
              ["Date"; "Price"; "Supply"] "Supply" eq_refl) as (H1 & H2 & _).
  now split.
Defined.

(** X8. [_pick_mvrv_column] succeeds exactly when some column has a
    normalized name that is not excluded; otherwise (also on a table
    without columns) it raises its one error, "Could not determine MVRV
    column from response". *)
Theorem pick_succeeds_iff_some_name_is_unexcluded (cols : list string) :
  ((exists r, _pick_mvrv_column cols = Ok r) <->
   existsb (fun c => negb (is_excluded (normalize c))) cols = true)
  /\ (forall e,
      _pick_mvrv_column cols = Raise e ->
      e = NoMvrvColumn
      /\ forallb (fun c => is_excluded (normalize c)) cols = true).
Proof.
  split; [split|].
  - intros [r H]. destruct (pick_is_lookup_entry _ _ H) as [L X].
    apply existsb_exists. exists r.
    split; [exact (proj1 (last_named_Some _ _ _ L)) | now rewrite X].
  - apply pick_success.
  - apply pick_failure.
Qed.

(** X9. The resolver returns a column whose normalized name contains
    "mvrv" exactly when some column's normalized name does: the exclusion
    list never hides such a column, and the fallback is used only when
    there is none. *)
Theorem pick_takes_mvrv_name_iff_available (cols : list string) (r : string) :
  _pick_mvrv_column cols = Ok r ->
  has_mvrv (normalize r) =
  existsb (fun c => has_mvrv (normalize c)) cols.
Proof.
  intro H. destruct (pick_is_lookup_entry _ _ H) as [L _].
  destruct (last_named_Some _ _ _ L) as [Hin _].
  destruct (existsb (fun c => has_mvrv (normalize c)) cols) eqn:E.
  - pose proof (pick_by_names cols) as P. simpl in P.
    destruct (prefer_short_exists (fun k => k)
                (first_appearance (map normalize cols))) as [k Hk].
    { rewrite (existsb_names candidate).
      apply existsb_exists in E as (c & Hc & Hm).
      apply existsb_exists. exists c. split; [exact Hc|].
      now apply has_mvrv_candidate. }
    rewrite Hk in P. destruct P as (c & Hl & Hp).
    rewrite H in Hp. injection Hp as <-.
    destruct (last_named_Some _ _ _ Hl) as [_ Hn]. rewrite Hn.
    apply prefer_short_Some in Hk as [_ Hc]. unfold candidate in Hc.
    now apply andb_true_iff in Hc as [_ Hc].
  - destruct (has_mvrv (normalize r)) eqn:M; [|reflexivity].
    assert (existsb (fun c => has_mvrv (normalize c)) cols = true) as C
      by (apply existsb_exists; eauto).
    congruence.
Qed.

Lemma pick_takes_mvrv_name_iff_available_witness :
  _pick_mvrv_column ["Date"; "Ratio"; "STH-MVRV"; "Price"] = Ok "STH-MVRV"
  /\ has_mvrv (normalize "STH-MVRV") = true.
Proof.
  split; [reflexivity|].
  exact (pick_takes_mvrv_name_iff_available
           ["Date"; "Ratio"; "STH-MVRV"; "Price"] "STH-MVRV" eq_refl).
Defined.

(** X10. Whenever some candidate name hints "short" or "sth", the column
    that the resolver returns has a name that hints it too, whatever the
    order of the columns and whether or not names repeat. *)
Theorem pick_takes_short_hint_if_available (cols : list string) (r : string) :
  _pick_mvrv_column cols = Ok r ->
  existsb (fun c => candidate (normalize c) && hints_short (normalize c)) cols
  = true ->
  candidate (normalize r) = true /\ hints_short (normalize r) = true.
Proof.
  intros H E. pose proof (pick_by_names cols) as P. simpl in P.
  unfold prefer_short in P.
  rewrite <- (existsb_names (fun k => candidate k && hints_short k)) in E.
  destruct (find (fun a => candidate a && hints_short a)
              (first_appearance (map normalize cols))) as [k|] eqn:F.
  - destruct P as (c & Hl & Hp). rewrite H in Hp. injection Hp as <-.
    destruct (last_named_Some _ _ _ Hl) as [_ Hn]. rewrite Hn.
    apply find_some in F as [_ F]. now apply andb_true_iff in F.
  - apply find_None_existsb in F. congruence.
Qed.

Lemma pick_takes_short_hint_if_available_witness :
  let cols := ["MVRV"; "mvrv_sth"; "Date"; "mvrv"] in
  _pick_mvrv_column cols = Ok "mvrv_sth"
  /\ hints_short (normalize "mvrv_sth") = true.
Proof.
  split; [reflexivity|].
  exact (proj2 (pick_takes_short_hint_if_available
                  ["MVRV"; "mvrv_sth"; "Date"; "mvrv"] "mvrv_sth"
                  eq_refl eq_refl)).
Defined.

(** X11. The resolver looks at names only through their normalized form:
    on two tables whose columns have, position by position, the same
    normalized names, it fails on both or returns columns with the same
    normalized name. *)
Theorem pick_depends_on_normalized_names_only (cols1 cols2 : list string) :
  map normalize cols1 = map normalize cols2 ->
  match _pick_mvrv_column cols1, _pick_mvrv_column cols2 with
  | Ok r1, Ok r2 => normalize r1 = normalize r2
  | Raise e1, Raise e2 => e1 = e2
  | _, _ => False
  end.
Proof.
  intro E. pose proof (pick_by_names cols1) as P1.
  pose proof (pick_by_names cols2) as P2. simpl in P1, P2.
  rewrite E in P1.
  destruct (prefer_short _ _) as [k|].
  - destruct P1 as (c1 & L1 & ->), P2 as (c2 & L2 & ->).
    apply last_named_Some in L1 as [_ L1], L2 as [_ L2]. congruence.
  - destruct (first_unexcluded _ _) as [k|].
    + destruct P1 as (c1 & L1 & ->), P2 as (c2 & L2 & ->).
      apply last_named_Some in L1 as [_ L1], L2 as [_ L2]. congruence.
    + now rewrite P1, P2.
Qed.

Lemma pick_depends_on_normalized_names_only_witness :
  _pick_mvrv_column ["date"; "sth_mvrv"] = Ok "sth_mvrv"
  /\ _pick_mvrv_column ["Date"; " STH_MVRV "] = Ok " STH_MVRV "
  /\ normalize "sth_mvrv" = normalize " STH_MVRV ".
Proof.
  split; [reflexivity|]. split; [reflexivity|].
  exact (pick_depends_on_normalized_names_only
           ["date"; "sth_mvrv"] ["Date"; " STH_MVRV "] eq_refl).
Defined.

Lemma filter_comm {A} (p q : A -> bool) (l : list A) :
  filter p (filter q l) = filter q (filter p l).
Proof.
  induction l as [|x l IH]; simpl; [reflexivity|].
  destruct (p x) eqn:P, (q x) eqn:Q; simpl; rewrite ?P, ?Q, IH; reflexivity.
Qed.

Lemma filter_absorbs {A} (p q : A -> bool) (l : list A) :
  (forall y, p y = true -> q y = true) ->
  filter p (filter q l) = filter p l.
Proof.
  intro H. induction l as [|x l IH]; simpl; [reflexivity|].
  destruct (q x) eqn:Q; simpl.
  - destruct (p x); now rewrite IH.
  - destruct (p x) eqn:P; [|exact IH]. rewrite (H x P) in Q. discriminate.
Qed.

Lemma map_filter_normalize (p : string -> bool) (cols : list string) :
  map normalize (filter (fun c => p (normalize c)) cols) =
  filter p (map normalize cols).
Proof.
  induction cols as [|c cols IH]; simpl; [reflexivity|].
  destruct (p (normalize c)); simpl; now rewrite IH.
Qed.

Lemma first_appearance_filter (p : string -> bool) (l : list string) :
  first_appearance (filter p l) = filter p (first_appearance l).
Proof.
  induction l as [|x l IH]; simpl; [reflexivity|].
  destruct (p x) eqn:P; simpl.
  - rewrite IH. f_equal. apply filter_comm.
  - rewrite IH. symmetry. apply filter_absorbs.
    intros y Hy. apply negb_true_iff.
    destruct (String.eqb y x) eqn:E; [|reflexivity].
    apply String.eqb_eq in E. congruence.
Qed.

Lemma find_filter_absorbs {A} (p q : A -> bool) (l : list A) :
  (forall y, q y = true -> p y = true) ->
  find q (filter p l) = find q l.
Proof.
  intro H. rewrite find_filter. induction l as [|x l IH]; simpl;
    [reflexivity|].
  destruct (q x) eqn:Q.
  - now rewrite (H x Q).
  - rewrite andb_false_r. exact IH.
Qed.

Lemma last_named_filter (k : string) (cols : list string) :
  is_excluded k = false ->
  last_named k (filter (fun c => negb (is_excluded (normalize c))) cols) =
  last_named k cols.
Proof.
  intro H. unfold last_named. rewrite <- filter_rev.
  apply find_filter_absorbs. intros c E. apply String.eqb_eq in E.
  now rewrite E, H.
Qed.

(** X19. Columns with excluded names play no part in the choice of the
    metric column: the resolver gives the same outcome on a table and on
    the table without its date, time, timestamp, price and cap columns. *)
Theorem pick_ignores_excluded_columns (cols : list string) :
  _pick_mvrv_column
    (filter (fun c => negb (is_excluded (normalize c))) cols) =
  _pick_mvrv_column cols.
Proof.
  pose proof (pick_by_names cols) as P.
  pose proof (pick_by_names
                (filter (fun c => negb (is_excluded (normalize c))) cols))
    as Q.
  simpl in P, Q.
  rewrite (map_filter_normalize (fun k => negb (is_excluded k))) in Q.
  rewrite first_appearance_filter in Q.
  unfold prefer_short, first_unexcluded in P, Q.
  rewrite !find_filter_absorbs in Q.
  - destruct (find (fun a => candidate a && hints_short a) _) as [k|] eqn:F1.
    { apply find_some in F1 as [_ F1]. apply andb_true_iff in F1 as [F1 _].
      unfold candidate in F1. apply andb_true_iff in F1 as [F1 _].
      apply negb_true_iff in F1.
      destruct P as (c & L & ->), Q as (c' & L' & ->).
      rewrite (last_named_filter _ _ F1) in L'. congruence. }
    destruct (find candidate _) as [k|] eqn:F2.
    { apply find_some in F2 as [_ F2].
      unfold candidate in F2. apply andb_true_iff in F2 as [F2 _].
      apply negb_true_iff in F2.
      destruct P as (c & L & ->), Q as (c' & L' & ->).
      rewrite (last_named_filter _ _ F2) in L'. congruence. }
    destruct (find (fun a => negb (is_excluded a)) _) as [k|] eqn:F3.
    { apply find_some in F3 as [_ F3]. apply negb_true_iff in F3.
      destruct P as (c & L & ->), Q as (c' & L' & ->).
      rewrite (last_named_filter _ _ F3) in L'. congruence. }
    now rewrite P, Q.
  - intros y Hy. exact Hy.
  - intros y Hy. unfold candidate in Hy.
    now apply andb_true_iff in Hy as [Hy _].
  - intros y Hy. apply andb_true_iff in Hy as [Hy _]. unfold candidate in Hy.
    now apply andb_true_iff in Hy as [Hy _].
Qed.

End ResolverLaws.

(** * Further laws of the column mapping *)

Module MappingLaws.

Import PyStr PyStrFacts Resolver Spec ListFacts LookupFacts ResolverFacts.
Import MappingFacts.

Lemma date_guard_lowercase (cols : list string) :
  date_guard_fails cols =
  negb (existsb (String.eqb "date") (map lower cols)).
Proof.
  unfold date_guard_fails.
  destruct (existsb (String.eqb "Date") cols) eqn:E; [|reflexivity].
  apply existsb_exists in E as (c & Hc & E). apply String.eqb_eq in E.
  subst c.
  assert (existsb (String.eqb "date") (map lower cols) = true) as E.
  { apply existsb_exists. exists (lower "Date").
    split; [now apply in_map | reflexivity]. }
  now rewrite E.
Qed.

(** X12. The date guard of [main] passes exactly when some column name,
    lower-cased but not trimmed, is "date"; its first test, for a column
    named "Date", adds nothing to the second. *)
Theorem date_guard_tests_untrimmed_lowercase_name (cols : list string) :
  date_guard_fails cols =
  negb (existsb (String.eqb "date") (map lower cols))
  /\ (date_guard_fails cols = false <->
      exists c, In c cols /\ lower c = "date").
Proof.
  split; [apply date_guard_lowercase|].
  rewrite date_guard_lowercase, negb_false_iff, existsb_exists. split.
  - intros (x & Hx & E). apply String.eqb_eq in E. subst x.
    apply in_map_iff in Hx as (c & Hc & Hin). now exists c.
  - intros (c & Hin & Hc). exists "date".
    split; [rewrite <- Hc; now apply in_map | reflexivity].
Qed.

(** X13. The price column is optional: when resolution succeeds, it is the
    last column whose normalized name is "price", and it is absent exactly
    when no column has that normalized name; its absence is no error. *)
Theorem price_column_is_last_price_named
    (cols : list string) (m : ColumnMapping) :
  resolve_columns cols = Ok m ->
  price_col m = last_named "price" cols
  /\ (price_col m = None <-> forall c, In c cols -> normalize c <> "price")
  /\ (forall p, price_col m = Some p -> In p cols /\ normalize p = "price").
Proof.
  intro H. destruct (resolve_columns_inv _ _ H) as (_ & _ & _ & P).
  rewrite lookup_get in P. rewrite P.
  split; [reflexivity|]. split.
  - apply LookupLaws.last_named_None.
  - intros p Hp. exact (last_named_Some _ _ _ Hp).
Qed.

Lemma price_column_is_last_price_named_witness :
  resolve_columns ["Date"; "price"; "MVRV"; " PRICE "] =
  Ok {| date_col := "Date"; mvrv_col := "MVRV";
        price_col := Some " PRICE " |}
  /\ resolve_columns ["Date"; "MVRV"] =
     Ok {| date_col := "Date"; mvrv_col := "MVRV"; price_col := None |}.
Proof.
  split.
  - destruct (price_column_is_last_price_named
                ["Date"; "price"; "MVRV"; " PRICE "]
                {| date_col := "Date"; mvrv_col := "MVRV";
                   price_col := Some " PRICE " |} eq_refl) as [_ _].
    reflexivity.
  - destruct (price_column_is_last_price_named
                ["Date"; "MVRV"]
                {| date_col := "Date"; mvrv_col := "MVRV";
                   price_col := None |} eq_refl) as [_ _].
    reflexivity.
Defined.

(** X14. The columns that [main] keeps are two or three columns of the
    table, pairwise different: selecting them from the frame cannot miss a
    column and never takes one column twice. *)
Theorem kept_columns_are_distinct_columns_of_table
    (cols : list string) (m : ColumnMapping) :
  resolve_columns cols = Ok m ->
  NoDup (keep_cols m)
  /\ incl (keep_cols m) cols
  /\ 2 <= length (keep_cols m) <= 3.
Proof.
  intro H.
  destruct (resolved_are_lookup_entries _ _ H) as (D & M & X & P).
  destruct (last_named_Some _ _ _ D) as [Din Dn].
  destruct (last_named_Some _ _ _ M) as [Min _].
  assert (date_col m <> mvrv_col m) as Hdm.
  { intro E. rewrite <- E, Dn in X. discriminate. }
  unfold keep_cols. destruct (price_col m) as [p|]; simpl.
  - destruct (last_named_Some _ _ _ (P p eq_refl)) as [Pin Pn].
    assert (p <> mvrv_col m) as Hpm.
    { intro E. rewrite <- E, Pn in X. discriminate. }
    assert (p <> date_col m) as Hpd.
    { intro E. rewrite E, Dn in Pn. discriminate. }
    split; [|split; [|lia]].
    + repeat constructor; simpl; intuition congruence.
    + intros x [<-|[<-|[<-|[]]]]; assumption.
  - split; [|split; [|lia]].
    + repeat constructor; simpl; intuition congruence.
    + intros x [<-|[<-|[]]]; assumption.
Qed.

Lemma kept_columns_are_distinct_columns_of_table_witness :
  resolve_columns ["Price"; "sth_mvrv"; "DATE"] =
  Ok {| date_col := "DATE"; mvrv_col := "sth_mvrv";
        price_col := Some "Price" |}
  /\ NoDup ["DATE"; "sth_mvrv"; "Price"].
Proof.
  split; [reflexivity|].
  exact (proj1 (kept_columns_are_distinct_columns_of_table
                  ["Price"; "sth_mvrv"; "DATE"]
                  {| date_col := "DATE"; mvrv_col := "sth_mvrv";
                     price_col := Some "Price" |} eq_refl)).
Defined.

End MappingLaws.

(** * Further laws of the body of [main] *)

Module PipelineLaws.

Import PyStr Resolver Unwrapper Spec.
Import PipelineFacts.

Section Rows.

Context {num : Type}.
Variable parse_num : string -> option num.
Variable show_num : num -> string.
Variable nan_as_str : option string.

Lemma to_numeric_cases (v : value num) :
  to_numeric parse_num v = NaN \/ exists x, to_numeric parse_num v = Num x.
Proof.
  destruct v as [|s|x]; simpl; [now left | | right; eauto].
  destruct (parse_num s); [right; eauto | now left].
Qed.

Lemma made_item_is_record (cols : list string) (m : ColumnMapping)
    (row : list (value num)) :
  make_item (coerce parse_num show_num nan_as_str (keep cols m row)) =
  record_of parse_num show_num nan_as_str cols m row.
Proof.
  unfold make_item, coerce, keep, record_of. simpl.
  destruct (price_col m); reflexivity.
Qed.

Lemma rows_to_records (cols : list string) (m : ColumnMapping)
    (rs : list (list (value num))) :
  flat_map (row_items parse_num show_num nan_as_str cols m) rs =
  map (record_of parse_num show_num nan_as_str cols m)
    (filter (row_kept parse_num show_num nan_as_str cols m) rs).
Proof.
  induction rs as [|r rs IH]; [reflexivity|].
  simpl. rewrite IH, row_items_by_cells.
  unfold row_kept at 2, metric_parses.
  destruct (_ && _); simpl; [now rewrite made_item_is_record | reflexivity].
Qed.

Lemma build_data_records (df : DataFrame num) (m : ColumnMapping) :
  df_empty df = false ->
  resolve_columns (columns df) = Ok m ->
  build_data parse_num show_num nan_as_str df =
  Ok (map (record_of parse_num show_num nan_as_str (columns df) m)
        (filter (row_kept parse_num show_num nan_as_str (columns df) m)
           (rows df))).
Proof.
  intros He Hm.
  now rewrite (build_data_by_rows _ _ _ df m He Hm), rows_to_records.
Qed.

Lemma build_data_inv (df : DataFrame num) (data : list (Item num)) :
  build_data parse_num show_num nan_as_str df = Ok data ->
  df_empty df = false /\ exists m, resolve_columns (columns df) = Ok m.
Proof.
  unfold build_data. destruct (df_empty df); [discriminate|].
  destruct (resolve_columns (columns df)) as [m|e]; [|discriminate].
  intros _. split; [reflexivity | eauto].
Qed.

End Rows.

(** X15. [data] holds, in the order of the rows, the record of every row
    that [dropna] keeps, and nothing else.  A row is kept when its metric
    cell parses and its date cell is not missing after [astype(str)]: where
    [astype(str)] keeps a missing cell missing these are the rows with a
    date and a parsable metric, where it renders a missing cell as text
    they are the rows with a parsable metric.  A row that is left out
    raises no error, a record's fields are read from its own row only,
    there are never more records than rows, and a table of which no row is
    kept gives the empty list, not an error. *)
Theorem data_is_records_of_kept_rows
    (num : Type) (parse_num : string -> option num) (show_num : num -> string)
    (nan_as_str : option string)
    (df : DataFrame num) (m : ColumnMapping) :
  df_empty df = false ->
  resolve_columns (columns df) = Ok m ->
  build_data parse_num show_num nan_as_str df =
  Ok (map (record_of parse_num show_num nan_as_str (columns df) m)
        (filter (row_kept parse_num show_num nan_as_str (columns df) m)
           (rows df)))
  /\ (forall row,
      row_kept parse_num show_num nan_as_str (columns df) m row =
      match nan_as_str with
      | Some _ => metric_parses parse_num (columns df) m row
      | None =>
          notna (cell (columns df) row (date_col m))
          && metric_parses parse_num (columns df) m row
      end)
  /\ length (filter (row_kept parse_num show_num nan_as_str (columns df) m)
               (rows df))
     <= length (rows df)
  /\ (forallb
        (fun r =>
           negb (row_kept parse_num show_num nan_as_str (columns df) m r))
        (rows df) = true ->
      build_data parse_num show_num nan_as_str df = Ok []).
Proof.
  intros He Hm.
  pose proof (build_data_records parse_num show_num nan_as_str df m He Hm)
    as B.
  split; [exact B|]. split; [|split; [apply filter_length_le|]].
  - intro row. unfold row_kept.
    destruct nan_as_str, (cell (columns df) row (date_col m)); reflexivity.
  - intro H. rewrite B. f_equal.
    assert (forall rs,
              forallb
                (fun r =>
                   negb (row_kept parse_num show_num nan_as_str
                           (columns df) m r)) rs = true ->
              filter (row_kept parse_num show_num nan_as_str (columns df) m)
                rs = []) as F.
    { induction rs as [|r rs IH]; [reflexivity|]. simpl. intro H'.
      apply andb_true_iff in H' as [H1 H2].
      apply negb_true_iff in H1. rewrite H1. exact (IH H2). }
    now rewrite (F _ H).
Qed.

Lemma data_is_records_of_kept_rows_witness :
  let df := {| columns := ["Date"; "MVRV"];
               rows := [[Str "2024-01-01"; Str "n/a"];
                        [NaN; Str "1.5"];
                        [Str "2024-01-03"; Str "1.5"]] |} in
  let parse := fun s => if String.eqb s "1.5" then Some 15 else None in
  build_data parse (fun _ : nat => EmptyString) missing_stays_missing df
  = Ok [ {| date := Str "2024-01-03"; sth_mvrv := Num 15; price := None |} ]
  /\ build_data parse (fun _ : nat => EmptyString) missing_becomes_nan_text df
     = Ok [ {| date := Str "nan"; sth_mvrv := Num 15; price := None |};
            {| date := Str "2024-01-03"; sth_mvrv := Num 15; price := None |} ].
Proof.
  split.
  - exact (proj1 (data_is_records_of_kept_rows nat
                    (fun s => if String.eqb s "1.5" then Some 15 else None)
                    (fun _ => EmptyString) missing_stays_missing
                    {| columns := ["Date"; "MVRV"];
                       rows := [[Str "2024-01-01"; Str "n/a"];
                                [NaN; Str "1.5"];
                                [Str "2024-01-03"; Str "1.5"]] |}
                    {| date_col := "Date"; mvrv_col := "MVRV";
                       price_col := None |} eq_refl eq_refl)).
  - exact (proj1 (data_is_records_of_kept_rows nat
                    (fun s => if String.eqb s "1.5" then Some 15 else None)
                    (fun _ => EmptyString) missing_becomes_nan_text
                    {| columns := ["Date"; "MVRV"];
                       rows := [[Str "2024-01-01"; Str "n/a"];
                                [NaN; Str "1.5"];
                                [Str "2024-01-03"; Str "1.5"]] |}
                    {| date_col := "Date"; mvrv_col := "MVRV";
                       price_col := None |} eq_refl eq_refl)).
Defined.

(** X16. Every record of [data] has a text as its date and a number as its
    sth_mvrv, never a missing value; its price, when it has one, is a
    number, and it has none when no price column was resolved. *)
Theorem records_hold_text_date_and_numbers
    (num : Type) (parse_num : string -> option num) (show_num : num -> string)
    (nan_as_str : option string)
    (df : DataFrame num) (data : list (Item num)) :
  build_data parse_num show_num nan_as_str df = Ok data ->
  forall item, In item data ->
    (exists s, date item = Str s)
    /\ (exists x, sth_mvrv item = Num x)
    /\ (price item = None \/ exists p, price item = Some (Num p))
    /\ (forall m, resolve_columns (columns df) = Ok m ->
        price_col m = None -> price item = None).
Proof.
  intros H item Hin.
  destruct (build_data_inv parse_num show_num nan_as_str df data H) as [He [m Hm]].
  rewrite (build_data_records parse_num show_num nan_as_str df m He Hm) in H.
  injection H as <-. apply in_map_iff in Hin as (row & <- & Hrow).
  apply filter_In in Hrow as [_ Hp]. unfold row_kept, metric_parses in Hp.
  apply andb_true_iff in Hp as [Hd Hp].
  unfold record_of. simpl. repeat split.
  - destruct (cell (columns df) row (date_col m)); simpl in *; eauto.
    destruct nan_as_str; [eauto | discriminate].
  - destruct (to_numeric_cases parse_num
                (cell (columns df) row (mvrv_col m))) as [E|E];
      [rewrite E in Hp; discriminate | exact E].
  - destruct (price_col m) as [pc|]; [|now left].
    destruct (to_numeric_cases parse_num (cell (columns df) row pc))
      as [E|[p E]]; rewrite E; simpl; [now left | right; eauto].
  - intros m' Hm' Hn. rewrite Hm in Hm'. injection Hm' as <-.
    now rewrite Hn.
Qed.

Lemma records_hold_text_date_and_numbers_witness :
  exists x, sth_mvrv {| date := Str "2024-01-02"; sth_mvrv := Num 15;
                        price := @None (value nat) |} = Num x.
Proof.
  exact (proj1 (proj2 (records_hold_text_date_and_numbers nat
                  (fun s => if String.eqb s "1.5" then Some 15 else None)
                  (fun _ => EmptyString) None
                  {| columns := ["Date"; "MVRV"];
                     rows := [[Str "2024-01-01"; Str "n/a"];
                              [Str "2024-01-02"; Str "1.5"]] |}
                  [ {| date := Str "2024-01-02"; sth_mvrv := Num 15;
                       price := None |} ]
                  eq_refl _ (or_introl eq_refl)))).
Defined.

(** X17. The checks of [main] on a parsed frame come in a fixed order: an
    empty frame is rejected as such whatever its columns; otherwise a
    header in which no name lower-cases to "date" is rejected for its
    missing Date column; otherwise a header whose names are all excluded is
    rejected for its missing metric column; every other frame gives data. *)
Theorem build_data_decision_table
    (num : Type) (parse_num : string -> option num) (show_num : num -> string)
    (nan_as_str : option string)
    (df : DataFrame num) :
  (df_empty df = true ->
   build_data parse_num show_num nan_as_str df = Raise EmptyDataFrame)
  /\ (df_empty df = false ->
      existsb (String.eqb "date") (map lower (columns df)) = false ->
      build_data parse_num show_num nan_as_str df =
      Raise (ExpectedDateColumn (columns df)))
  /\ (df_empty df = false ->
      existsb (String.eqb "date") (map lower (columns df)) = true ->
      forallb (fun c => is_excluded (normalize c)) (columns df) = true ->
      build_data parse_num show_num nan_as_str df = Raise NoMvrvColumn)
  /\ (df_empty df = false ->
      existsb (String.eqb "date") (map lower (columns df)) = true ->
      forallb (fun c => is_excluded (normalize c)) (columns df) = false ->
      exists data, build_data parse_num show_num nan_as_str df = Ok data).
Proof.
  unfold build_data, resolve_columns.
  rewrite MappingLaws.date_guard_lowercase.
  split; [|split; [|split]].
  - now intros ->.
  - now intros -> ->.
  - intros -> -> H. simpl.
    destruct (_pick_mvrv_column (columns df)) as [r|e] eqn:E.
    + destruct (MappingFacts.pick_is_lookup_entry _ _ E) as [L X].
      destruct (LookupFacts.last_named_Some _ _ _ L) as [Hin _].
      rewrite forallb_forall in H. rewrite (H r Hin) in X. discriminate.
    + now destruct (ResolverLaws.pick_failure _ _ E) as [-> _].
  - intros -> -> H. simpl.
    destruct (_pick_mvrv_column (columns df)) as [r|e] eqn:E; simpl; [eauto|].
    destruct (ResolverLaws.pick_failure _ _ E) as [_ C]. congruence.
Qed.

Lemma build_data_decision_table_witness :
  build_data (fun _ : string => @None nat) (fun _ : nat => EmptyString) None
    {| columns := ["Time"; "MVRV"]; rows := [] |} = Raise EmptyDataFrame
  /\ build_data (fun _ : string => @None nat) (fun _ : nat => EmptyString) None
       {| columns := ["Time"; "MVRV"]; rows := [[NaN; NaN]] |}
     = Raise (ExpectedDateColumn ["Time"; "MVRV"])
  /\ build_data (fun _ : string => @None nat) (fun _ : nat => EmptyString) None
       {| columns := ["Date"; "Price"]; rows := [[NaN; NaN]] |}
     = Raise NoMvrvColumn.
Proof.
  split; [|split].
  - exact (proj1 (build_data_decision_table nat (fun _ => None)
                    (fun _ => EmptyString) None
                    {| columns := ["Time"; "MVRV"]; rows := [] |}) eq_refl).
  - exact (proj1 (proj2 (build_data_decision_table nat (fun _ => None)
                    (fun _ => EmptyString) None
                    {| columns := ["Time"; "MVRV"]; rows := [[NaN; NaN]] |}))
             eq_refl eq_refl).
  - exact (proj1 (proj2 (proj2 (build_data_decision_table nat (fun _ => None)
                    (fun _ => EmptyString) None
                    {| columns := ["Date"; "Price"]; rows := [[NaN; NaN]] |})))
             eq_refl eq_refl eq_refl).
Defined.

(** X18. A quoted response reaches the parser as the text that was quoted:
    on a body that is a text without backslash-n of its own, quoted with
    its newlines escaped, the body of [main] parses exactly that text and
    builds the data from the parsed frame. *)
Theorem process_text_parses_the_quoted_csv
    (num : Type) (parse_num : string -> option num) (show_num : num -> string)
    (nan_as_str : option string)
    (read_csv : string -> result (DataFrame num)) (w1 t w2 : string) :
  contains escaped_newline t = false ->
  all_space w1 = true ->
  all_space w2 = true ->
  process_text parse_num show_num nan_as_str read_csv (w1 ++ quote_csv t ++ w2) =
  (df <- read_csv t ;; build_data parse_num show_num nan_as_str df).
Proof.
  intros H H1 H2. unfold process_text.
  rewrite (UnwrapperLaws.unwrap_surrounded _ _ _ H1 H2).
  now rewrite (UnwrapperLaws.unwrap_quote_csv_exact t H).
Qed.

Lemma process_text_parses_the_quoted_csv_witness :
  let t := "Date,MVRV" ++ String newline "2024-01-01,1.5" in
  let df := {| columns := ["Date"; "MVRV"];
               rows := [[Str "2024-01-01"; Num 15]] |} in
  process_text (fun _ : string => @None nat) (fun _ : nat => EmptyString) None
    (fun s => if String.eqb s t then Ok df else Raise ParserError)
    (quote_csv t ++ String newline EmptyString)
  = Ok [ {| date := Str "2024-01-01"; sth_mvrv := Num 15; price := None |} ].
Proof.
  exact (process_text_parses_the_quoted_csv nat (fun _ => None)
           (fun _ => EmptyString) None
           (fun s =>
              if String.eqb s
                   ("Date,MVRV" ++ String newline "2024-01-01,1.5")
              then Ok {| columns := ["Date"; "MVRV"];
                         rows := [[Str "2024-01-01"; Num 15]] |}
              else Raise ParserError)
           EmptyString
           ("Date,MVRV" ++ String newline "2024-01-01,1.5")
           (String newline EmptyString) eq_refl eq_refl eq_refl).
Defined.

Lemma build_data_errors
    (num : Type) (parse_num : string -> option num) (show_num : num -> string)
    (nan_as_str : option string)
    (df : DataFrame num) (e : error) :
  build_data parse_num show_num nan_as_str df = Raise e ->
  e = EmptyDataFrame
  \/ e = ExpectedDateColumn (columns df)
  \/ e = NoMvrvColumn.
Proof.
  unfold build_data, resolve_columns.
  destruct (df_empty df); [intro H; injection H as <-; now left|].
  destruct (date_guard_fails (columns df));
    [intro H; injection H as <-; right; now left|].
  destruct (_pick_mvrv_column (columns df)) as [r|e'] eqn:E; simpl;
    [discriminate|].
  intro H. injection H as <-.
  destruct (ResolverLaws.pick_failure _ _ E) as [-> _]. right. now right.
Qed.

(** X20. The body of [main] fails in these ways only: with the
    empty-response error, exactly on a text of whitespace; with an error of
    the CSV parser, raised on the unwrapped text; or, on the frame parsed
    from the unwrapped text, with the empty-frame, the missing-Date or the
    missing-metric error.  It raises no HTTP error of its own. *)
Theorem process_text_failures
    (num : Type) (parse_num : string -> option num) (show_num : num -> string)
    (nan_as_str : option string)
    (read_csv : string -> result (DataFrame num)) (raw : string) (e : error) :
  process_text parse_num show_num nan_as_str read_csv raw = Raise e ->
  (all_space raw = true /\ e = EmptyResponse)
  \/ (all_space raw = false
      /\ exists t,
          unwrap raw = Ok t
          /\ (read_csv t = Raise e
              \/ exists df,
                  read_csv t = Ok df
                  /\ build_data parse_num show_num nan_as_str df = Raise e
                  /\ (e = EmptyDataFrame
                      \/ e = ExpectedDateColumn (columns df)
                      \/ e = NoMvrvColumn))).
Proof.
  unfold process_text. intro H.
  destruct (all_space raw) eqn:A.
  - left. split; [reflexivity|].
    apply UnwrapperLaws.strip_empty_iff in A.
    rewrite (UnwrapperFacts.unwrap_blank raw A) in H. simpl in H. congruence.
  - right. split; [reflexivity|].
    destruct (unwrap raw) as [t|e'] eqn:U.
    + exists t. split; [reflexivity|]. simpl in H.
      destruct (read_csv t) as [df|e'] eqn:R; simpl in H.
      * right. exists df. repeat split; try assumption.
        exact (build_data_errors _ _ _ _ _ _ H).
      * left. now injection H as <-.
    + exfalso. unfold unwrap in U.
      destruct (strip raw) eqn:S; simpl in U; [|discriminate].
      apply UnwrapperLaws.strip_empty_iff in S. congruence.
Qed.

Lemma process_text_failures_witness :
  process_text (fun _ : string => @None nat) (fun _ : nat => EmptyString) None
    (fun _ => Ok {| columns := ["Date"; "Price"]; rows := [[NaN; NaN]] |})
    "Date,Price\n,"
  = Raise NoMvrvColumn.
Proof.
  destruct (process_text_failures nat (fun _ => None) (fun _ => EmptyString) None
              (fun _ => Ok {| columns := ["Date"; "Price"];
                              rows := [[NaN; NaN]] |})
              "Date,Price\n," NoMvrvColumn eq_refl) as [[_ _]|[_ _]];
    reflexivity.
Defined.

End PipelineLaws.
